(** * FounderReflect: the daily reflection session engine

    A shallow embedding of [src/components/DailyReflection.tsx]: the data
    shapes ([Message], [SessionState], the persisted reflection record), the
    helpers ([shouldEndSession], [analyzeConversationContext],
    [generateContextualQuestion], [saveReflection]) and the three handlers
    ([loadTodaysReflection], [startReflection], [sendMessage]).

    Conventions of the embedding.
    - A JavaScript string is the list of its UTF-16 code units ([jsstring]);
      [String.prototype.trim] is then exact, all ECMAScript white space and
      line terminators being single code units.
    - [Date.now()] yields integer milliseconds ([Z]); a quotient of such
      numbers ([elapsedMinutes], the generator's specificity score) is a
      rational ([Q]).  Doubles are exact on the integers that occur here, so
      [x / 60000 >= 20] agrees with the rational comparison.
    - The environment (clock, language generator, storage quota) is a record
      of oracles, [World]; the handlers run in a state-and-exception monad
      over the [Machine]: React component state, [localStorage], the number of
      oracle consultations so far and the trace of external effects.
    - A handler reads the component state through the closure of the render
      that created it, and writes through the [set...] functions; the closure
      is the explicit argument [c] of each handler.
    - [JSON.parse (JSON.stringify r)] is the identity on the plain records
      stored here, so [localStorage] maps a key to the record itself. *)

From Stdlib Require Import ZArith QArith Qround String Ascii List Bool Lia DecimalString.
From stdpp Require Import gmap list.
From Stdlib Require Import Sorted.

Local Open Scope Z_scope.

(** ** JavaScript strings *)

Module JS.

Definition jsstring := list N.

(** An ASCII literal as code units. *)
Definition lit (s : string) : jsstring :=
  map N_of_ascii (list_ascii_of_string s).

(** ECMAScript [WhiteSpace] and [LineTerminator] code points, the characters
    [trim] strips. *)
Definition isWhiteSpace (c : N) : bool :=
  ((c =? 0x9) || (c =? 0xA) || (c =? 0xB) || (c =? 0xC) || (c =? 0xD)
   || (c =? 0x20) || (c =? 0xA0) || (c =? 0x1680)
   || ((0x2000 <=? c) && (c <=? 0x200A))
   || (c =? 0x2028) || (c =? 0x2029) || (c =? 0x202F) || (c =? 0x205F)
   || (c =? 0x3000) || (c =? 0xFEFF))%N.

Fixpoint trimStart (s : jsstring) : jsstring :=
  match s with
  | [] => []
  | c :: s' => if isWhiteSpace c then trimStart s' else s
  end.

Definition trimEnd (s : jsstring) : jsstring := rev (trimStart (rev s)).

(** [s.trim()] *)
Definition trim (s : jsstring) : jsstring := trimEnd (trimStart s).

(** Truthiness of a string: every string but the empty one. *)
Definition truthy (s : jsstring) : bool :=
  match s with [] => false | _ :: _ => true end.

(** [n.toString()] for an integral number below 1e21 in magnitude (any
    reading of the clock): decimal digits, with a minus sign if negative. *)
Definition toString (n : Z) : jsstring :=
  lit (NilZero.string_of_int (Z.to_int n)).

(** [xs.join(sep)] *)
Fixpoint join (sep : jsstring) (xs : list jsstring) : jsstring :=
  match xs with
  | [] => []
  | [x] => x
  | x :: rest => x ++ sep ++ join sep rest
  end.

(** [xs.slice(-n)]: the last [n] elements, all of them if there are fewer. *)
Definition sliceLast {A} (n : nat) (xs : list A) : list A :=
  skipn (length xs - n) xs.

End JS.
Export JS.

(** ** Data model (the interfaces at the top of the file) *)

Inductive Role := user | assistant.

Record Message := {
  id : jsstring;
  role : Role;
  content : jsstring;
  timestamp : Z
}.

Record TopicCoverageEntry := {
  mentioned : bool;
  explored : bool;
  specificity : Q;
  lastQuestionIndex : Z
}.

Record SessionState := {
  startTime : Z;
  questionCount : Z;
  maxQuestions : Z;
  isComplete : bool;
  topics : list jsstring;
  topicCoverage : gmap jsstring TopicCoverageEntry;
  currentFocus : option jsstring
}.

(** The object [analyzeConversationContext] resolves to. *)
Record TopicAnalysis := {
  ta_topics : list jsstring;
  currentTopicSpecificity : Q;
  shouldMoveToNewTopic : bool;
  suggestedNextTopic : option jsstring
}.

(** [reflectionData] of [saveReflection], the value kept under a
    [reflection_<user>_<date>] key. *)
Record ReflectionData := {
  rd_messages : list Message;
  rd_sessionState : SessionState;
  rd_date : jsstring;
  rd_userId : jsstring;
  rd_updatedAt : Z
}.

(** The [useState] cells of the component. *)
Record Component := {
  messages : list Message;
  input : jsstring;
  isLoading : bool;
  hasStarted : bool;
  sessionState : SessionState
}.

(** The values interpolated into [contextPrompt]; the rest of the template is
    constant text. *)
Record ContextPrompt := {
  cp_questionNumber : Z;        (* questionCount + 1 *)
  cp_maxQuestions : Z;
  cp_questionsRemaining : Z;
  cp_minutesElapsed : Z;        (* Math.round(elapsedMinutes) *)
  cp_analysis : TopicAnalysis;
  cp_history : jsstring         (* role: content, joined *)
}.

(** ** The environment and the machine *)

Inductive JsError := GenerationError | StorageError.

(** What the outside answers.  The [n]-th reading of the clock by a handler is
    [clock n];
    the generator's answer to its [n]-th request may depend on the request
    ([None]: the promise rejects); the [n]-th [localStorage.setItem] is
    refused (quota) when [setItemOk n] is [false]. *)
Record World := {
  clock : nat -> Z;
  generateObject : nat -> jsstring -> option TopicAnalysis;
  generateText : nat -> ContextPrompt -> option jsstring;
  setItemOk : nat -> bool
}.

(** The component's props and its [todayDate] cell.  That cell has no setter
    and takes its value from [new Date()] when an instance of the component is
    mounted: an [Env] is the environment of one mounted instance, and an
    instance mounted on another day runs in another [Env]. *)
Record Env := {
  world : World;
  user_id : jsstring;
  todayDate : jsstring
}.

(** Effects visible outside the component, oldest first. *)
Inductive Event :=
| EvGenerateObject (conversationText : jsstring) (result : option TopicAnalysis)
| EvGenerateText (prompt : ContextPrompt) (result : option jsstring)
| EvSetItem (key : jsstring) (value : ReflectionData) (accepted : bool)
| EvConsoleError (label : jsstring)
| EvToast (title description : jsstring).

Record Machine := {
  component : Component;
  localStorage : gmap jsstring ReflectionData;
  clockReads : nat;
  aiCalls : nat;
  storageWrites : nat;
  trace : list Event
}.

Inductive Outcome (A : Type) :=
| Returned (a : A)
| Thrown (err : JsError).
Arguments Returned {A} a.
Arguments Thrown {A} err.

Definition M (A : Type) : Type := Env -> Machine -> Outcome A * Machine.

#[export] Instance M_ret : MRet M := fun A a _ m => (Returned a, m).

#[export] Instance M_bind : MBind M := fun A B f c e m =>
  match c e m with
  | (Returned a, m') => f a e m'
  | (Thrown err, m') => (Thrown err, m')
  end.

Definition throw {A} (err : JsError) : M A := fun _ m => (Thrown err, m).

(** [try { body } catch (error) { handler }] *)
Definition tryCatch {A} (body : M A) (handler : JsError -> M A) : M A :=
  fun e m =>
    match body e m with
    | (Returned a, m') => (Returned a, m')
    | (Thrown err, m') => handler err e m'
    end.

(** [try { body } finally { fin }] *)
Definition tryFinally {A} (body : M A) (fin : M unit) : M A :=
  fun e m =>
    match body e m with
    | (o, m') =>
        match fin e m' with
        | (Returned _, m'') => (o, m'')
        | (Thrown err, m'') => (Thrown err, m'')
        end
    end.

Definition ask : M Env := fun e m => (Returned e, m).

Definition modify (f : Machine -> Machine) : M unit :=
  fun _ m => (Returned tt, f m).

Definition withComponent (f : Component -> Component) (m : Machine) : Machine :=
  {| component := f (component m); localStorage := localStorage m;
     clockReads := clockReads m; aiCalls := aiCalls m;
     storageWrites := storageWrites m; trace := trace m |}.

Definition emit (ev : Event) (m : Machine) : Machine :=
  {| component := component m; localStorage := localStorage m;
     clockReads := clockReads m; aiCalls := aiCalls m;
     storageWrites := storageWrites m; trace := trace m ++ [ev] |}.

(** *** The state setters *)

Definition setMessages (v : list Message) : M unit :=
  modify (withComponent (fun c =>
    {| messages := v; input := input c; isLoading := isLoading c;
       hasStarted := hasStarted c; sessionState := sessionState c |})).

Definition setInput (v : jsstring) : M unit :=
  modify (withComponent (fun c =>
    {| messages := messages c; input := v; isLoading := isLoading c;
       hasStarted := hasStarted c; sessionState := sessionState c |})).

Definition setIsLoading (v : bool) : M unit :=
  modify (withComponent (fun c =>
    {| messages := messages c; input := input c; isLoading := v;
       hasStarted := hasStarted c; sessionState := sessionState c |})).

Definition setHasStarted (v : bool) : M unit :=
  modify (withComponent (fun c =>
    {| messages := messages c; input := input c; isLoading := isLoading c;
       hasStarted := v; sessionState := sessionState c |})).

Definition setSessionState (v : SessionState) : M unit :=
  modify (withComponent (fun c =>
    {| messages := messages c; input := input c; isLoading := isLoading c;
       hasStarted := hasStarted c; sessionState := v |})).

(** *** The outside calls *)

(** [Date.now()] *)
Definition Date_now : M Z := fun e m =>
  (Returned (clock (world e) (clockReads m)),
   {| component := component m; localStorage := localStorage m;
      clockReads := S (clockReads m); aiCalls := aiCalls m;
      storageWrites := storageWrites m; trace := trace m |}).

Definition countAiCall (m : Machine) : Machine :=
  {| component := component m; localStorage := localStorage m;
     clockReads := clockReads m; aiCalls := S (aiCalls m);
     storageWrites := storageWrites m; trace := trace m |}.

(** [await blink.ai.generateObject({prompt, schema})], the prompt being fixed
    text around [conversationText]. *)
Definition blink_ai_generateObject (conversationText : jsstring) : M TopicAnalysis :=
  fun e m =>
    let r := generateObject (world e) (aiCalls m) conversationText in
    let m' := emit (EvGenerateObject conversationText r) (countAiCall m) in
    match r with
    | Some object => (Returned object, m')
    | None => (Thrown GenerationError, m')
    end.

(** [await blink.ai.generateText({prompt, model, maxTokens})] *)
Definition blink_ai_generateText (prompt : ContextPrompt) : M jsstring :=
  fun e m =>
    let r := generateText (world e) (aiCalls m) prompt in
    let m' := emit (EvGenerateText prompt r) (countAiCall m) in
    match r with
    | Some text => (Returned text, m')
    | None => (Thrown GenerationError, m')
    end.

(** [localStorage.setItem(key, JSON.stringify(value))] *)
Definition localStorage_setItem (key : jsstring) (value : ReflectionData) : M unit :=
  fun e m =>
    let ok := setItemOk (world e) (storageWrites m) in
    let m' :=
      {| component := component m;
         localStorage := if ok then <[key := value]> (localStorage m)
                         else localStorage m;
         clockReads := clockReads m; aiCalls := aiCalls m;
         storageWrites := S (storageWrites m);
         trace := trace m ++ [EvSetItem key value ok] |} in
    if ok then (Returned tt, m') else (Thrown StorageError, m').

(** [localStorage.getItem(key)], parsed. *)
Definition localStorage_getItem (key : jsstring) : M (option ReflectionData) :=
  fun _ m => (Returned (localStorage m !! key), m).

Definition console_error (label : string) : M unit :=
  modify (emit (EvConsoleError (lit label))).

Definition toast (title description : string) : M unit :=
  modify (emit (EvToast (lit title) (lit description))).

(** ** The component's functions *)

Definition LF : jsstring := [10%N].

(** The closing text returned by [generateContextualQuestion]; the four code
    units after [tomorrow! ] are the characters the source file holds there. *)
Definition closingMessage : jsstring :=
  lit "Thank you for taking time to reflect today! You've covered some important ground. "
  ++ LF ++ LF ++
  lit "Based on our conversation, here's what I'm hearing:" ++ LF ++
  lit "- You're making progress on your startup journey" ++ LF ++
  lit "- You have clear next steps to focus on" ++ LF ++ LF ++
  lit "Remember: consistent daily reflection, even just 15-20 minutes, builds momentum over time. "
  ++ LF ++ LF ++
  lit "Your reflection is complete for today. See you tomorrow! "
  ++ [0xF0; 0x178; 0x161; 0x20AC]%N.

Definition welcomeContent : jsstring :=
  lit "Welcome to your daily reflection! I'm here to help you think through your startup journey in the next 15-20 minutes. Let's start with something positive: What's one thing you accomplished yesterday that moved your startup forward, no matter how small?".

Definition fallbackLastQuestion : jsstring :=
  lit "What's one specific action you'll take tomorrow to move your startup forward?".

Definition fallbackQuestion : jsstring :=
  lit "What's one specific challenge you're facing today, and what small step could you take to move forward?".

(** [{...s, questionCount: v}] and [{...s, isComplete: v}] *)
Definition withQuestionCount (v : Z) (s : SessionState) : SessionState :=
  {| startTime := startTime s; questionCount := v;
     maxQuestions := maxQuestions s; isComplete := isComplete s;
     topics := topics s; topicCoverage := topicCoverage s;
     currentFocus := currentFocus s |}.

Definition withIsComplete (v : bool) (s : SessionState) : SessionState :=
  {| startTime := startTime s; questionCount := questionCount s;
     maxQuestions := maxQuestions s; isComplete := v;
     topics := topics s; topicCoverage := topicCoverage s;
     currentFocus := currentFocus s |}.

(** The [useState] initial values. *)
Definition initialSessionState : SessionState :=
  {| startTime := 0; questionCount := 0; maxQuestions := 5;
     isComplete := false; topics := []; topicCoverage := ∅;
     currentFocus := None |}.

(** The literal [startReflection] builds, [startTime] being the clock's
    reading. *)
Definition freshSessionState (now : Z) : SessionState :=
  {| startTime := now; questionCount := 0; maxQuestions := 5;
     isComplete := false; topics := []; topicCoverage := ∅;
     currentFocus := None |}.

Definition initialComponent : Component :=
  {| messages := []; input := []; isLoading := false; hasStarted := false;
     sessionState := initialSessionState |}.

Definition reflectionKey (e : Env) : jsstring :=
  lit "reflection_" ++ user_id e ++ lit "_" ++ todayDate e.

Definition renderRole (r : Role) : jsstring :=
  match r with user => lit "user" | assistant => lit "assistant" end.

(** [msgs.map(m => `${m.role}: ${m.content}`).join('\\n')]: the separator is
    a backslash followed by [n]. *)
Definition renderConversation (msgs : list Message) : jsstring :=
  join (lit "\n") (map (fun m => renderRole (role m) ++ lit ": " ++ content m) msgs).

(** [(now - start) / (1000 * 60)] *)
Definition elapsedMinutes (now start : Z) : Q :=
  (inject_Z (now - start) / inject_Z (1000 * 60))%Q.

(** [Math.round]: to the nearest integer, halves upwards. *)
Definition Math_round (x : Q) : Z := Qfloor (x + (1 # 2))%Q.

Definition loadTodaysReflection (c : Component) : M unit :=
  e ← ask;
  if negb (truthy (user_id e)) then mret tt
  else
    tryCatch
      (savedReflection ← localStorage_getItem (reflectionKey e);
       match savedReflection with
       | Some data =>
           setMessages (rd_messages data);;
           setHasStarted (0 <? length (rd_messages data))%nat;;
           setSessionState (rd_sessionState data)
       | None => mret tt
       end)
      (fun _ => console_error "Error loading reflection:").

Definition saveReflection (c : Component) (newMessages : list Message)
    (newSessionState : option SessionState) : M unit :=
  tryCatch
    (e ← ask;
     updatedAt ← Date_now;
     let reflectionData :=
       {| rd_messages := newMessages;
          rd_sessionState := default (sessionState c) newSessionState;
          rd_date := todayDate e;
          rd_userId := user_id e;
          rd_updatedAt := updatedAt |} in
     localStorage_setItem (reflectionKey e) reflectionData)
    (fun _ => console_error "Error saving reflection:").

Definition analyzeConversationContext (msgs : list Message) : M TopicAnalysis :=
  if (length msgs <? 2)%nat then
    mret {| ta_topics := []; currentTopicSpecificity := 0;
            shouldMoveToNewTopic := false; suggestedNextTopic := None |}
  else
    let recentMessages := sliceLast 4 msgs in
    let conversationText := renderConversation recentMessages in
    tryCatch
      (blink_ai_generateObject conversationText)
      (fun _ =>
         console_error "Error analyzing conversation:";;
         mret {| ta_topics := []; currentTopicSpecificity := 1;
                 shouldMoveToNewTopic := false; suggestedNextTopic := None |}).

Definition shouldEndSession (currentSession : SessionState) (elapsed : Q) : bool :=
  (questionCount currentSession >=? maxQuestions currentSession)
  || Qle_bool 20 elapsed
  || isComplete currentSession.

Definition generateContextualQuestion (conversationHistory : list Message)
    (currentSession : SessionState) : M jsstring :=
  now ← Date_now;
  let elapsed := elapsedMinutes now (startTime currentSession) in
  let questionsRemaining :=
    maxQuestions currentSession - questionCount currentSession in
  if shouldEndSession currentSession elapsed then mret closingMessage
  else
    analysis ← analyzeConversationContext conversationHistory;
    let contextPrompt :=
      {| cp_questionNumber := questionCount currentSession + 1;
         cp_maxQuestions := maxQuestions currentSession;
         cp_questionsRemaining := questionsRemaining;
         cp_minutesElapsed := Math_round elapsed;
         cp_analysis := analysis;
         cp_history := renderConversation conversationHistory |} in
    tryCatch
      (blink_ai_generateText contextPrompt)
      (fun _ =>
         console_error "Error generating question:";;
         mret (if questionsRemaining <=? 1 then fallbackLastQuestion
               else fallbackQuestion)).

Definition startReflection (c : Component) : M unit :=
  setIsLoading true;;
  setHasStarted true;;
  t0 ← Date_now;
  let newSessionState := freshSessionState t0 in
  setSessionState newSessionState;;
  t1 ← Date_now;
  t2 ← Date_now;
  let welcomeMessage :=
    {| id := toString t1; role := assistant; content := welcomeContent;
       timestamp := t2 |} in
  let newMessages := [welcomeMessage] in
  setMessages newMessages;;
  saveReflection c newMessages (Some newSessionState);;
  setIsLoading false.

Definition sendMessage (c : Component) : M unit :=
  if negb (truthy (trim (input c))) || isLoading c || isComplete (sessionState c)
  then mret tt
  else
    t1 ← Date_now;
    t2 ← Date_now;
    let userMessage :=
      {| id := toString t1; role := user; content := trim (input c);
         timestamp := t2 |} in
    let updatedMessages := messages c ++ [userMessage] in
    setMessages updatedMessages;;
    setInput [];;
    setIsLoading true;;
    tryFinally
      (tryCatch
         (let updatedSessionState :=
            withQuestionCount (questionCount (sessionState c) + 1) (sessionState c) in
          aiResponse ← generateContextualQuestion updatedMessages updatedSessionState;
          t3 ← Date_now;
          t4 ← Date_now;
          let assistantMessage :=
            {| id := toString (t3 + 1); role := assistant;
               content := aiResponse; timestamp := t4 |} in
          let finalMessages := updatedMessages ++ [assistantMessage] in
          t5 ← Date_now;
          let elapsed := elapsedMinutes t5 (startTime updatedSessionState) in
          let finalSessionState :=
            withIsComplete (shouldEndSession updatedSessionState elapsed)
              updatedSessionState in
          setMessages finalMessages;;
          setSessionState finalSessionState;;
          saveReflection c finalMessages (Some finalSessionState))
         (fun _ =>
            console_error "Error sending message:";;
            toast "Error" "Failed to generate response. Please try again."))
      (setIsLoading false).

(** ** Running the handlers *)

(** An event handler runs with the closure of the current render. *)
Definition handle (h : Component -> M unit) (e : Env) (m : Machine) : Machine :=
  snd (h (component m) e m).

Definition outcomeOf (h : Component -> M unit) (e : Env) (m : Machine) : Outcome unit :=
  fst (h (component m) e m).

(** What the user can do: mount the page afresh (the component state is
    re-initialised and the load effect runs), press the start button, or type
    a text and send it. *)
Inductive Op :=
| Mount
| StartSession
| SubmitUserTurn (text : jsstring).

(** A fresh instance: the cells of [Component] take their [useState] initial
    values.  Two cells are not in [Component]: [todayDate], which is the one of
    the environment the instance is mounted in, and [currentTime], initialised
    from [Date.now()] and advanced by the timer effect, which only feeds the
    minutes shown in the header.  The readings of the clock made while
    rendering are not among those that [clockReads] counts, which are the
    handlers' own. *)
Definition mounted (m : Machine) : Machine :=
  withComponent (fun _ => initialComponent) m.

Definition typed (text : jsstring) (m : Machine) : Machine :=
  withComponent (fun c =>
    {| messages := messages c; input := text; isLoading := isLoading c;
       hasStarted := hasStarted c; sessionState := sessionState c |}) m.

Definition exec (e : Env) (op : Op) (m : Machine) : Machine :=
  match op with
  | Mount => handle loadTodaysReflection e (mounted m)
  | StartSession => handle startReflection e m
  | SubmitUserTurn text => handle sendMessage e (typed text m)
  end.

Definition run (e : Env) (ops : list Op) (m : Machine) : Machine :=
  fold_left (fun m op => exec e op m) ops m.

Definition bootMachine : Machine :=
  {| component := initialComponent; localStorage := ∅; clockReads := 0;
     aiCalls := 0; storageWrites := 0; trace := [] |}.

(** *** Visits on different days

    Every mount initialises [todayDate] anew, so the date an instance works
    with is the date of the day it was mounted on.  A visit is one instance:
    it is mounted in the environment of its day, runs the load effect there
    and then handles the operations that follow.  The store, the counters and
    the trace go on from one visit to the next. *)

Record Visit := {
  visit_env : Env;
  visit_ops : list Op
}.

Definition visit (v : Visit) (m : Machine) : Machine :=
  run (visit_env v) (Mount :: visit_ops v) m.

Definition visits (vs : list Visit) (m : Machine) : Machine :=
  fold_left (fun m v => visit v m) vs m.

(** ** Vocabulary of the statements *)

(** The guard on the first line of [sendMessage]. *)
Definition sendBlocked (c : Component) : bool :=
  negb (truthy (trim (input c))) || isLoading c || isComplete (sessionState c).

(** The events a handler added to the trace. *)
Definition newEvents (m m' : Machine) : list Event :=
  drop (length (trace m)) (trace m').

Definition isGeneratorEvent (ev : Event) : bool :=
  match ev with
  | EvGenerateObject _ _ | EvGenerateText _ _ => true
  | _ => false
  end.

(** Time does not run backwards between two readings of the clock. *)
Definition monotoneClock (w : World) : Prop :=
  forall i j : nat, (i <= j)%nat -> clock w i <= clock w j.

(** The [k]-th reading of the clock made by a handler started in [m]. *)
Definition reading (e : Env) (m : Machine) (k : nat) : Z :=
  clock (world e) (clockReads m + k).

(** The topic labels the coverage analysis has returned so far. *)
Definition detectedTopics (tr : list Event) : list jsstring :=
  flat_map (fun ev =>
    match ev with
    | EvGenerateObject _ (Some a) => ta_topics a
    | _ => []
    end) tr.

(** The pacing bounds every session state of a run satisfies. *)
Definition paced (s : SessionState) : Prop :=
  maxQuestions s = 5 /\ 0 <= questionCount s <= 5 /\
  (isComplete s = false -> questionCount s < 5).

(** A property of session states that holds of the session on screen and of
    every stored one. *)
Definition sessionsAll (P : SessionState -> Prop) (m : Machine) : Prop :=
  P (sessionState (component m)) /\
  forall k r, localStorage m !! k = Some r -> P (rd_sessionState r).

(** The two messages of a turn, from the clock readings of the handler. *)
Definition userMessageOf (e : Env) (m : Machine) : Message :=
  {| id := toString (reading e m 0); role := user;
     content := trim (input (component m)); timestamp := reading e m 1 |}.

Definition assistantMessageOf (e : Env) (m : Machine) (text : jsstring) : Message :=
  {| id := toString (reading e m 3 + 1); role := assistant;
     content := text; timestamp := reading e m 4 |}.

(** The opening message of [startReflection]. *)
Definition welcomeMessageOf (e : Env) (m : Machine) : Message :=
  {| id := toString (reading e m 1); role := assistant;
     content := welcomeContent; timestamp := reading e m 2 |}.

(** ** A relational account of one turn

    What [analyzeConversationContext] and [generateContextualQuestion] make of
    the oracles' answers: the value produced, the events emitted and the number
    of generator requests spent.  [turn_shape] below shows that [sendMessage]
    follows it. *)

Definition analysisRequest (hist : list Message) : jsstring :=
  renderConversation (sliceLast 4 hist).

Definition contextPromptOf (hist : list Message) (s : SessionState)
    (now : Z) (analysis : TopicAnalysis) : ContextPrompt :=
  {| cp_questionNumber := questionCount s + 1;
     cp_maxQuestions := maxQuestions s;
     cp_questionsRemaining := maxQuestions s - questionCount s;
     cp_minutesElapsed := Math_round (elapsedMinutes now (startTime s));
     cp_analysis := analysis;
     cp_history := renderConversation hist |}.

Inductive Analysed (w : World) (n : nat) (hist : list Message) :
    TopicAnalysis -> list Event -> nat -> Prop :=
| AnalysisSkipped :
    (length hist < 2)%nat ->
    Analysed w n hist
      {| ta_topics := []; currentTopicSpecificity := 0;
         shouldMoveToNewTopic := false; suggestedNextTopic := None |} [] 0
| AnalysisReturned object :
    (2 <= length hist)%nat ->
    generateObject w n (analysisRequest hist) = Some object ->
    Analysed w n hist object
      [EvGenerateObject (analysisRequest hist) (Some object)] 1
| AnalysisFailed :
    (2 <= length hist)%nat ->
    generateObject w n (analysisRequest hist) = None ->
    Analysed w n hist
      {| ta_topics := []; currentTopicSpecificity := 1;
         shouldMoveToNewTopic := false; suggestedNextTopic := None |}
      [EvGenerateObject (analysisRequest hist) None;
       EvConsoleError (lit "Error analyzing conversation:")] 1.

Inductive Replied (w : World) (n : nat) (hist : list Message)
    (s : SessionState) (now : Z) : jsstring -> list Event -> nat -> Prop :=
| ReplyClosing :
    shouldEndSession s (elapsedMinutes now (startTime s)) = true ->
    Replied w n hist s now closingMessage [] 0
| ReplyGenerated analysis evs k text :
    shouldEndSession s (elapsedMinutes now (startTime s)) = false ->
    Analysed w n hist analysis evs k ->
    generateText w (n + k) (contextPromptOf hist s now analysis) = Some text ->
    Replied w n hist s now text
      (evs ++ [EvGenerateText (contextPromptOf hist s now analysis) (Some text)])
      (k + 1)
| ReplyFallback analysis evs k :
    shouldEndSession s (elapsedMinutes now (startTime s)) = false ->
    Analysed w n hist analysis evs k ->
    generateText w (n + k) (contextPromptOf hist s now analysis) = None ->
    Replied w n hist s now
      (if maxQuestions s - questionCount s <=? 1 then fallbackLastQuestion
       else fallbackQuestion)
      (evs ++ [EvGenerateText (contextPromptOf hist s now analysis) None;
               EvConsoleError (lit "Error generating question:")])
      (k + 1).

(** The record a turn hands to [saveReflection]. *)
Definition turnRecord (e : Env) (m : Machine) (text : jsstring) : ReflectionData :=
  let s := sessionState (component m) in
  let updated := withQuestionCount (questionCount s + 1) s in
  {| rd_messages :=
       messages (component m) ++ [userMessageOf e m; assistantMessageOf e m text];
     rd_sessionState :=
       withIsComplete
         (shouldEndSession updated (elapsedMinutes (reading e m 5) (startTime s)))
         updated;
     rd_date := todayDate e;
     rd_userId := user_id e;
     rd_updatedAt := reading e m 6 |}.

(** The record [startReflection] hands to [saveReflection]. *)
Definition startRecord (e : Env) (m : Machine) : ReflectionData :=
  {| rd_messages := [welcomeMessageOf e m];
     rd_sessionState := freshSessionState (reading e m 0);
     rd_date := todayDate e;
     rd_userId := user_id e;
     rd_updatedAt := reading e m 3 |}.

(** What [saveReflection] leaves in the store and in the trace. *)
Definition storeAfterSave (e : Env) (m : Machine) (data : ReflectionData) :
    gmap jsstring ReflectionData :=
  if setItemOk (world e) (storageWrites m)
  then <[reflectionKey e := data]> (localStorage m)
  else localStorage m.

Definition saveEvents (e : Env) (m : Machine) (data : ReflectionData) : list Event :=
  EvSetItem (reflectionKey e) data (setItemOk (world e) (storageWrites m))
  :: (if setItemOk (world e) (storageWrites m) then []
      else [EvConsoleError (lit "Error saving reflection:")]).

(** ** Sample environments and sessions *)

Definition fundingAnalysis : TopicAnalysis :=
  {| ta_topics := [lit "funding"]; currentTopicSpecificity := 2;
     shouldMoveToNewTopic := true; suggestedNextTopic := Some (lit "team_issues") |}.

(** One second between readings of the clock; the generator and the store
    always answer. *)
Definition calmWorld : World :=
  {| clock := fun n => 1000 * Z.of_nat n;
     generateObject := fun _ _ => Some fundingAnalysis;
     generateText := fun _ _ => Some (lit "What is blocking the launch?");
     setItemOk := fun _ => true |}.

(** The same with [step] milliseconds between readings. *)
Definition pacedWorld (step : Z) : World :=
  {| clock := fun n => step * Z.of_nat n;
     generateObject := generateObject calmWorld;
     generateText := generateText calmWorld;
     setItemOk := setItemOk calmWorld |}.

(** A generator whose structured call, or whose text call, rejects. *)
Definition noAnalysisWorld : World :=
  {| clock := clock calmWorld;
     generateObject := fun _ _ => None;
     generateText := generateText calmWorld;
     setItemOk := setItemOk calmWorld |}.

Definition noTextWorld : World :=
  {| clock := clock calmWorld;
     generateObject := generateObject calmWorld;
     generateText := fun _ _ => None;
     setItemOk := setItemOk calmWorld |}.

Definition envOf (w : World) : Env :=
  {| world := w; user_id := lit "u1"; todayDate := lit "2024-05-06" |}.

Definition shipped : jsstring := lit "Shipped onboarding flow".

(** A session just started, with a text typed in. *)
Definition readyMachine (w : World) : Machine :=
  typed shipped (run (envOf w) [StartSession] bootMachine).

(** A session taken to its end: the start and five turns. *)
Definition completedMachine : Machine :=
  run (envOf calmWorld)
    (StartSession :: repeat (SubmitUserTurn shipped) 5) bootMachine.

(** ** The rendered controls

    The JSX of the component: the start button stands in for the whole session
    view while [hasStarted] is false; once it is true the text area and the
    send button are rendered unless the session is complete, each with its
    [disabled] attribute. *)

Inductive Control := StartButton | InputBox | SendButton.

Definition rendered (c : Component) (ctl : Control) : bool :=
  match ctl with
  | StartButton => negb (hasStarted c)
  | InputBox | SendButton => hasStarted c && negb (isComplete (sessionState c))
  end.

Definition disabled (c : Component) (ctl : Control) : bool :=
  match ctl with
  | StartButton => false
  | InputBox => isLoading c || isComplete (sessionState c)
  | SendButton =>
      negb (truthy (trim (input c))) || isLoading c || isComplete (sessionState c)
  end.

(** A control answers the user when it is on the page and not disabled. *)
Definition usable (c : Component) (ctl : Control) : bool :=
  rendered c ctl && negb (disabled c ctl).

Record KeyboardEvent := {
  key : jsstring;
  shiftKey : bool
}.

(** [handleKeyPress]; the result tells whether [e.preventDefault()] was
    called. *)
Definition handleKeyPress (ev : KeyboardEvent) (c : Component) : M bool :=
  if bool_decide (key ev = lit "Enter") && negb (shiftKey ev)
  then sendMessage c;; mret true
  else mret false.

(** What the user does on the page. *)
Inductive UserAction :=
| Reload
| ClickStart
| TypeText (text : jsstring)
| ClickSend
| PressKey (ev : KeyboardEvent).

Definition act (e : Env) (a : UserAction) (m : Machine) : Machine :=
  match a with
  | Reload => exec e Mount m
  | ClickStart =>
      if usable (component m) StartButton then handle startReflection e m else m
  | TypeText text =>
      if usable (component m) InputBox then typed text m else m
  | ClickSend =>
      if usable (component m) SendButton then handle sendMessage e m else m
  | PressKey ev =>
      if usable (component m) InputBox
      then snd (handleKeyPress ev (component m) e m) else m
  end.

Definition interact (e : Env) (actions : list UserAction) (m : Machine) : Machine :=
  fold_left (fun m a => act e a m) actions m.

(** ** Shapes of a transcript *)

(** The roles of [n] turns: each a user's message and the assistant's reply. *)
Fixpoint turnRoles (n : nat) : list Role :=
  match n with
  | O => []
  | S k => user :: assistant :: turnRoles k
  end.

(** A transcript that opens with the welcome message and goes on with as many
    turns as the session state counts. *)
Definition transcriptOf (msgs : list Message) (s : SessionState) : Prop :=
  0 <= questionCount s /\
  map role msgs = assistant :: turnRoles (Z.to_nat (questionCount s)) /\
  content <$> head msgs = Some welcomeContent.

(** What holds of a page driven through its controls. *)
Definition onPage (m : Machine) : Prop :=
  isLoading (component m) = false /\
  (hasStarted (component m) = false -> component m = initialComponent) /\
  (hasStarted (component m) = true ->
   transcriptOf (messages (component m)) (sessionState (component m)) /\
   paced (sessionState (component m))) /\
  (forall k r, localStorage m !! k = Some r ->
     transcriptOf (rd_messages r) (rd_sessionState r) /\ paced (rd_sessionState r)).

(** The messages of a transcript were stamped at successive readings of the
    clock, all of them made already: [idxs] are the readings' numbers. *)
Definition stampedBy (w : World) (bound : nat) (msgs : list Message) : Prop :=
  exists idxs : list nat,
    map timestamp msgs = map (clock w) idxs /\
    StronglySorted lt idxs /\
    Forall (fun i => (i < bound)%nat) idxs.

Definition stampedMachine (e : Env) (m : Machine) : Prop :=
  stampedBy (world e) (clockReads m) (messages (component m)) /\
  forall k r, localStorage m !! k = Some r ->
    stampedBy (world e) (clockReads m) (rd_messages r).

(** The record [r] under the key [k] is one that an instance of [vs] wrote:
    the key is the instance's, and so are the record's user id and date. *)
Definition writtenBy (vs : list Visit) (k : jsstring) (r : ReflectionData) : Prop :=
  exists v, v ∈ vs /\ k = reflectionKey (visit_env v) /\
    rd_userId r = user_id (visit_env v) /\ rd_date r = todayDate (visit_env v).

Definition isToastEvent (ev : Event) : bool :=
  match ev with
  | EvToast _ _ => true
  | _ => false
  end.

(** ** More sample environments *)

(** A store that takes the first write and refuses the later ones. *)
Definition fullStoreWorld : World :=
  {| clock := clock calmWorld;
     generateObject := generateObject calmWorld;
     generateText := generateText calmWorld;
     setItemOk := fun n => (n <? 1)%nat |}.

(** A session with four turns behind it and a text typed in. *)
Definition lastSlotMachine : Machine :=
  typed shipped
    (run (envOf calmWorld)
       (StartSession :: repeat (SubmitUserTurn shipped) 4) bootMachine).

(** The start button, then [n] times a text and the send button. *)
Definition pageSession (n : nat) : list UserAction :=
  ClickStart :: concat (repeat [TypeText shipped; ClickSend] n).

Definition enterKey : KeyboardEvent :=
  {| key := lit "Enter"; shiftKey := false |}.

(** The same user and world on the day after the one of [envOf]. *)
Definition dayAfter (e : Env) : Env :=
  {| world := world e; user_id := user_id e; todayDate := lit "2024-05-07" |}.

(** A session started on one day; on the next, another one with a turn. *)
Definition twoDays : list Visit :=
  [ {| visit_env := envOf calmWorld; visit_ops := [StartSession] |};
    {| visit_env := dayAfter (envOf calmWorld);
       visit_ops := [StartSession; SubmitUserTurn shipped] |} ].

(** A message with the given role, text and time stamp. *)
Definition sampleMessage (r : Role) (text : string) (stamp : Z) : Message :=
  {| id := toString stamp; role := r; content := lit text; timestamp := stamp |}.

(** ** The reflection viewer ([ReflectionViewer.tsx])

    The viewer reads the record that [saveReflection] wrote.  Such a record
    always carries its [sessionState], so of the two tests that open
    [getSessionDuration] only the one on the message list can fail. *)

Record Viewer := {
  reflection : option ReflectionData;
  loading : bool
}.

Definition initialViewer : Viewer := {| reflection := None; loading := true |}.

(** [loadReflection], with the props [user.id] and [reflectionDate]; the
    [finally] clears [loading] on every path. *)
Definition loadReflection (uid reflectionDate : jsstring)
    (store : gmap jsstring ReflectionData) (v : Viewer) : Viewer :=
  if negb (truthy uid) || negb (truthy reflectionDate)
  then {| reflection := reflection v; loading := false |}
  else
    match store !! (lit "reflection_" ++ uid ++ lit "_" ++ reflectionDate) with
    | Some data => {| reflection := Some data; loading := false |}
    | None => {| reflection := reflection v; loading := false |}
    end.

(** [getSessionDuration]: minutes from the first message to the last, [None]
    for JavaScript's [null]. *)
Definition getSessionDuration (v : Viewer) : option Z :=
  match reflection v with
  | None => None
  | Some r =>
      match rd_messages r with
      | [] => None
      | firstMessage :: _ =>
          let lastMessage := List.last (rd_messages r) firstMessage in
          let duration := timestamp lastMessage - timestamp firstMessage in
          Some (Math_round (inject_Z duration / inject_Z (1000 * 60))%Q)
      end
  end.

Record SessionStats := {
  totalMessages : nat;
  userMessages : nat;
  assistantMessages : nat;
  duration : option Z
}.

Definition hasRole (r : Role) (msg : Message) : bool :=
  match r, role msg with
  | user, user | assistant, assistant => true
  | _, _ => false
  end.

(** [getSessionStats] *)
Definition getSessionStats (v : Viewer) : option SessionStats :=
  match reflection v with
  | None => None
  | Some r =>
      let userMsgs := List.filter (hasRole user) (rd_messages r) in
      let assistantMsgs := List.filter (hasRole assistant) (rd_messages r) in
      Some {| totalMessages := length (rd_messages r);
              userMessages := length userMsgs;
              assistantMessages := length assistantMsgs;
              duration := getSessionDuration v |}
  end.

(** ** The founder profile ([ProfileSetup.tsx]) *)

Module ProfileSetup.

(** [FounderProfile]; [updatedAt] is the property [saveProfile] adds to what it
    stores, absent from the initial profile. *)
Record FounderProfile := {
  companyName : jsstring;
  industry : jsstring;
  stage : jsstring;
  goals : list jsstring;
  currentChallenges : list jsstring;
  reflectionStreak : Z;
  lastReflectionDate : jsstring;
  updatedAt : option jsstring
}.

(** The [useState] cells of the form. *)
Record Form := {
  profile : FounderProfile;
  isLoading : bool;
  goalInput : jsstring;
  challengeInput : jsstring
}.

(** The props and the outside: the user's id, whether [onProfileComplete] was
    passed, the [n]-th value of [new Date().toISOString()] and whether the
    [n]-th [localStorage.setItem] is accepted. *)
Record Env := {
  user_id : jsstring;
  onProfileComplete : bool;
  toISOString : nat -> jsstring;
  setItemOk : nat -> bool
}.

Inductive Event :=
| EvToast (title description : jsstring) (destructive : bool)
| EvConsoleError (label : jsstring)
| EvProfileComplete.

(** The form, the profiles in [localStorage] and what went outside. *)
Record Page := {
  form : Form;
  store : gmap jsstring FounderProfile;
  clockReads : nat;
  storageWrites : nat;
  trace : list Event
}.

Definition initialProfile : FounderProfile :=
  {| companyName := []; industry := []; stage := lit "pre-seed"; goals := [];
     currentChallenges := []; reflectionStreak := 0; lastReflectionDate := [];
     updatedAt := None |}.

Definition initialForm : Form :=
  {| profile := initialProfile; isLoading := false; goalInput := [];
     challengeInput := [] |}.

Definition profileKey (uid : jsstring) : jsstring := lit "founder_profile_" ++ uid.

Definition withForm (f : Form -> Form) (p : Page) : Page :=
  {| form := f (form p); store := store p; clockReads := clockReads p;
     storageWrites := storageWrites p; trace := trace p |}.

Definition setProfile (f : FounderProfile -> FounderProfile) (p : Page) : Page :=
  withForm (fun s =>
    {| profile := f (profile s); isLoading := isLoading s;
       goalInput := goalInput s; challengeInput := challengeInput s |}) p.

Definition setIsLoading (v : bool) (p : Page) : Page :=
  withForm (fun s =>
    {| profile := profile s; isLoading := v; goalInput := goalInput s;
       challengeInput := challengeInput s |}) p.

Definition setGoalInput (v : jsstring) (p : Page) : Page :=
  withForm (fun s =>
    {| profile := profile s; isLoading := isLoading s; goalInput := v;
       challengeInput := challengeInput s |}) p.

Definition setChallengeInput (v : jsstring) (p : Page) : Page :=
  withForm (fun s =>
    {| profile := profile s; isLoading := isLoading s; goalInput := goalInput s;
       challengeInput := v |}) p.

Definition emit (ev : Event) (p : Page) : Page :=
  {| form := form p; store := store p; clockReads := clockReads p;
     storageWrites := storageWrites p; trace := trace p ++ [ev] |}.

(** [toast({title, description, variant})]; [destructive] tells whether the
    variant is ["destructive"]. *)
Definition toast (title description : string) (destructive : bool) (p : Page) : Page :=
  emit (EvToast (lit title) (lit description) destructive) p.

(** [{...prev, goals: v}] and the like *)
Definition withGoals (v : list jsstring) (f : FounderProfile) : FounderProfile :=
  {| companyName := companyName f; industry := industry f; stage := stage f;
     goals := v; currentChallenges := currentChallenges f;
     reflectionStreak := reflectionStreak f;
     lastReflectionDate := lastReflectionDate f; updatedAt := updatedAt f |}.

Definition withChallenges (v : list jsstring) (f : FounderProfile) : FounderProfile :=
  {| companyName := companyName f; industry := industry f; stage := stage f;
     goals := goals f; currentChallenges := v;
     reflectionStreak := reflectionStreak f;
     lastReflectionDate := lastReflectionDate f; updatedAt := updatedAt f |}.

Definition withCompanyName (v : jsstring) (f : FounderProfile) : FounderProfile :=
  {| companyName := v; industry := industry f; stage := stage f;
     goals := goals f; currentChallenges := currentChallenges f;
     reflectionStreak := reflectionStreak f;
     lastReflectionDate := lastReflectionDate f; updatedAt := updatedAt f |}.

Definition withIndustry (v : jsstring) (f : FounderProfile) : FounderProfile :=
  {| companyName := companyName f; industry := v; stage := stage f;
     goals := goals f; currentChallenges := currentChallenges f;
     reflectionStreak := reflectionStreak f;
     lastReflectionDate := lastReflectionDate f; updatedAt := updatedAt f |}.

Definition withStage (v : jsstring) (f : FounderProfile) : FounderProfile :=
  {| companyName := companyName f; industry := industry f; stage := v;
     goals := goals f; currentChallenges := currentChallenges f;
     reflectionStreak := reflectionStreak f;
     lastReflectionDate := lastReflectionDate f; updatedAt := updatedAt f |}.

Definition withUpdatedAt (v : jsstring) (f : FounderProfile) : FounderProfile :=
  {| companyName := companyName f; industry := industry f; stage := stage f;
     goals := goals f; currentChallenges := currentChallenges f;
     reflectionStreak := reflectionStreak f;
     lastReflectionDate := lastReflectionDate f; updatedAt := Some v |}.

(** [loadProfile] *)
Definition loadProfile (e : Env) (p : Page) : Page :=
  if negb (truthy (user_id e)) then p
  else
    match store p !! profileKey (user_id e) with
    | Some savedProfile => setProfile (fun _ => savedProfile) p
    | None => p
    end.

(** [saveProfile]: the four checks, each with its toast and an early return,
    then the write inside [try], [catch] and [finally]. *)
Definition saveProfile (e : Env) (p : Page) : Page :=
  let f := profile (form p) in
  if negb (truthy (trim (companyName f))) then
    toast "Required Field Missing" "Please enter your company name." true p
  else if negb (truthy (trim (industry f))) then
    toast "Required Field Missing" "Please enter your industry." true p
  else if negb (truthy (stage f)) then
    toast "Required Field Missing" "Please select your current stage." true p
  else if (length (goals f) =? 0)%nat then
    toast "Required Field Missing" "Please add at least one goal." true p
  else
    let p1 := setIsLoading true p in
    let profileData := withUpdatedAt (toISOString e (clockReads p1)) f in
    let accepted := setItemOk e (storageWrites p1) in
    let p2 :=
      {| form := form p1;
         store := if accepted
                  then <[profileKey (user_id e) := profileData]> (store p1)
                  else store p1;
         clockReads := S (clockReads p1);
         storageWrites := S (storageWrites p1);
         trace := trace p1 |} in
    let p3 :=
      if accepted then
        let p' := toast "Profile Saved"
                    "Your founder profile has been updated successfully." false p2 in
        if onProfileComplete e then emit EvProfileComplete p' else p'
      else
        toast "Error" "Failed to save profile. Please try again." true
          (emit (EvConsoleError (lit "Error saving profile:")) p2) in
    setIsLoading false p3.

(** [addGoal] and [removeGoal] *)
Definition addGoal (p : Page) : Page :=
  let s := form p in
  if truthy (trim (goalInput s))
     && negb (bool_decide (trim (goalInput s) ∈ goals (profile s)))
  then
    setGoalInput []
      (setProfile (fun prev => withGoals (goals prev ++ [trim (goalInput s)]) prev) p)
  else p.

Definition removeGoal (goalToRemove : jsstring) (p : Page) : Page :=
  setProfile (fun prev =>
    withGoals (List.filter (fun goal => negb (bool_decide (goal = goalToRemove)))
                 (goals prev)) prev) p.

(** [addChallenge] and [removeChallenge] *)
Definition addChallenge (p : Page) : Page :=
  let s := form p in
  if truthy (trim (challengeInput s))
     && negb (bool_decide (trim (challengeInput s) ∈ currentChallenges (profile s)))
  then
    setChallengeInput []
      (setProfile (fun prev =>
         withChallenges (currentChallenges prev ++ [trim (challengeInput s)]) prev) p)
  else p.

Definition removeChallenge (challengeToRemove : jsstring) (p : Page) : Page :=
  setProfile (fun prev =>
    withChallenges
      (List.filter (fun challenge => negb (bool_decide (challenge = challengeToRemove)))
         (currentChallenges prev)) prev) p.

(** [handleKeyPress (e, action)]: Enter runs the action, with or without
    Shift. *)
Definition handleKeyPress (pressed : jsstring) (action : Page -> Page) (p : Page) : Page :=
  if bool_decide (pressed = lit "Enter") then action p else p.

(** The stages the select offers. *)
Definition stageItems : list jsstring :=
  [lit "idea"; lit "pre-seed"; lit "seed"; lit "series-a"; lit "series-b"].

(** What the user does on the form.  The add buttons are disabled while their
    input trims to nothing, the save button while [isLoading]. *)
Inductive Action :=
| Mount
| TypeCompanyName (text : jsstring)
| TypeIndustry (text : jsstring)
| SelectStage (item : jsstring)
| TypeGoal (text : jsstring)
| TypeChallenge (text : jsstring)
| ClickAddGoal
| ClickAddChallenge
| PressKeyInGoal (pressed : jsstring)
| PressKeyInChallenge (pressed : jsstring)
| ClickRemoveGoal (goal : jsstring)
| ClickRemoveChallenge (challenge : jsstring)
| ClickSave.

Definition act (e : Env) (a : Action) (p : Page) : Page :=
  match a with
  | Mount => loadProfile e (withForm (fun _ => initialForm) p)
  | TypeCompanyName text => setProfile (withCompanyName text) p
  | TypeIndustry text => setProfile (withIndustry text) p
  | SelectStage item =>
      if bool_decide (item ∈ stageItems) then setProfile (withStage item) p else p
  | TypeGoal text => setGoalInput text p
  | TypeChallenge text => setChallengeInput text p
  | ClickAddGoal =>
      if truthy (trim (goalInput (form p))) then addGoal p else p
  | ClickAddChallenge =>
      if truthy (trim (challengeInput (form p))) then addChallenge p else p
  | PressKeyInGoal pressed => handleKeyPress pressed addGoal p
  | PressKeyInChallenge pressed => handleKeyPress pressed addChallenge p
  | ClickRemoveGoal goal =>
      if bool_decide (goal ∈ goals (profile (form p))) then removeGoal goal p else p
  | ClickRemoveChallenge challenge =>
      if bool_decide (challenge ∈ currentChallenges (profile (form p)))
      then removeChallenge challenge p else p
  | ClickSave => if isLoading (form p) then p else saveProfile e p
  end.

Definition interact (e : Env) (actions : list Action) (p : Page) : Page :=
  fold_left (fun p a => act e a p) actions p.

Definition bootPage : Page :=
  {| form := initialForm; store := ∅; clockReads := 0; storageWrites := 0;
     trace := [] |}.

End ProfileSetup.

(** ** The application shell ([App]) *)

Module App.

Record State := {
  user : option jsstring;
  loading : bool;
  currentPage : jsstring;
  viewingReflection : option jsstring;
  viewingSummary : option jsstring;
  profileCompleted : bool
}.

Definition initialState : State :=
  {| user := None; loading := true; currentPage := lit "reflection";
     viewingReflection := None; viewingSummary := None;
     profileCompleted := false |}.

(** Truthiness of [string | null]. *)
Definition given (v : option jsstring) : bool :=
  match v with
  | Some s => truthy s
  | None => false
  end.

Definition setProfileCompleted (v : bool) (s : State) : State :=
  {| user := user s; loading := loading s; currentPage := currentPage s;
     viewingReflection := viewingReflection s;
     viewingSummary := viewingSummary s; profileCompleted := v |}.

Definition setCurrentPage (v : jsstring) (s : State) : State :=
  {| user := user s; loading := loading s; currentPage := v;
     viewingReflection := viewingReflection s;
     viewingSummary := viewingSummary s;
     profileCompleted := profileCompleted s |}.

Definition setViewingReflection (v : option jsstring) (s : State) : State :=
  {| user := user s; loading := loading s; currentPage := currentPage s;
     viewingReflection := v; viewingSummary := viewingSummary s;
     profileCompleted := profileCompleted s |}.

Definition setViewingSummary (v : option jsstring) (s : State) : State :=
  {| user := user s; loading := loading s; currentPage := currentPage s;
     viewingReflection := viewingReflection s; viewingSummary := v;
     profileCompleted := profileCompleted s |}.

(** The listener of [onAuthStateChanged]: [setUser] and [setLoading]. *)
Definition authStateChanged (u : option jsstring) (isLoading : bool) (s : State) : State :=
  {| user := u; loading := isLoading; currentPage := currentPage s;
     viewingReflection := viewingReflection s;
     viewingSummary := viewingSummary s;
     profileCompleted := profileCompleted s |}.

(** The value App computes from a stored profile, as a truth value:
    [companyName && industry && stage && goals && goals.length > 0]. *)
Definition isCompleted (f : ProfileSetup.FounderProfile) : bool :=
  truthy (ProfileSetup.companyName f) && truthy (ProfileSetup.industry f)
  && truthy (ProfileSetup.stage f)
  && (0 <? length (ProfileSetup.goals f))%nat.

(** The effect that runs when [user] changes. *)
Definition checkProfile (profiles : gmap jsstring ProfileSetup.FounderProfile)
    (s : State) : State :=
  if given (user s) then
    match profiles !! ProfileSetup.profileKey (default [] (user s)) with
    | Some savedProfile => setProfileCompleted (isCompleted savedProfile) s
    | None => setProfileCompleted false s
    end
  else s.

Definition handleViewReflection (date : jsstring) (s : State) : State :=
  setViewingReflection (Some date) s.

Definition handleViewSummary (summaryId : jsstring) (s : State) : State :=
  setViewingSummary (Some summaryId) s.

Definition handleBackToDashboard (s : State) : State :=
  setCurrentPage (lit "dashboard") (setViewingReflection None s).

Definition handleBackToSummaries (s : State) : State :=
  setCurrentPage (lit "summaries") (setViewingSummary None s).

(** What [App] returns. *)
Inductive Screen :=
| Spinner
| LoginScreen
| ProfileGate
| ReflectionViewerScreen (date : jsstring)
| WeeklySummaryViewerScreen (summaryId : jsstring)
| DailyReflectionPage
| DashboardPage
| WeeklySummariesPage
| ProfilePage.

Definition renderCurrentPage (s : State) : Screen :=
  if given (viewingReflection s)
  then ReflectionViewerScreen (default [] (viewingReflection s))
  else if given (viewingSummary s)
  then WeeklySummaryViewerScreen (default [] (viewingSummary s))
  else if bool_decide (currentPage s = lit "reflection") then DailyReflectionPage
  else if bool_decide (currentPage s = lit "dashboard") then DashboardPage
  else if bool_decide (currentPage s = lit "summaries") then WeeklySummariesPage
  else if bool_decide (currentPage s = lit "profile") then ProfilePage
  else DailyReflectionPage.

Definition render (s : State) : Screen :=
  if loading s then Spinner
  else match user s with
       | None => LoginScreen
       | Some _ =>
           if negb (profileCompleted s) then ProfileGate else renderCurrentPage s
       end.

(** What the navigation bar and the pages can ask of the shell. *)
Inductive Navigation :=
| PageChange (page : jsstring)
| ViewReflection (date : jsstring)
| ViewSummary (summaryId : jsstring)
| BackToDashboard
| BackToSummaries.

Definition navigate (n : Navigation) (s : State) : State :=
  match n with
  | PageChange page => setCurrentPage page s
  | ViewReflection date => handleViewReflection date s
  | ViewSummary summaryId => handleViewSummary summaryId s
  | BackToDashboard => handleBackToDashboard s
  | BackToSummaries => handleBackToSummaries s
  end.

End App.

(** ** Vocabulary for the profile form *)

(** A text as [trim] leaves it when it leaves anything. *)
Definition trimmedText (g : jsstring) : Prop :=
  g <> [] /\
  (forall c, head g = Some c -> isWhiteSpace c = false) /\
  (forall c, last g = Some c -> isWhiteSpace c = false).

Definition tidy (l : list jsstring) : Prop := NoDup l /\ Forall trimmedText l.

Definition tidyProfile (f : ProfileSetup.FounderProfile) : Prop :=
  tidy (ProfileSetup.goals f) /\ tidy (ProfileSetup.currentChallenges f) /\
  ProfileSetup.stage f ∈ ProfileSetup.stageItems.

(** What [saveProfile] has checked of a profile it stored. *)
Definition acceptable (f : ProfileSetup.FounderProfile) : Prop :=
  trim (ProfileSetup.companyName f) <> [] /\
  trim (ProfileSetup.industry f) <> [] /\
  ProfileSetup.goals f <> [] /\
  is_Some (ProfileSetup.updatedAt f).

Definition tidyPage (e : ProfileSetup.Env) (p : ProfileSetup.Page) : Prop :=
  tidyProfile (ProfileSetup.profile (ProfileSetup.form p)) /\
  forall k f, ProfileSetup.store p !! k = Some f ->
    k = ProfileSetup.profileKey (ProfileSetup.user_id e) /\
    tidyProfile f /\ acceptable f.

(** A user of the form, and a form filled in. *)
Definition sampleProfileEnv : ProfileSetup.Env :=
  {| ProfileSetup.user_id := lit "u1";
     ProfileSetup.onProfileComplete := true;
     ProfileSetup.toISOString := fun _ => lit "2024-05-06T09:00:00.000Z";
     ProfileSetup.setItemOk := fun _ => true |}.

Definition fillProfile : list ProfileSetup.Action :=
  [ProfileSetup.TypeCompanyName (lit "Acme"); ProfileSetup.TypeIndustry (lit "SaaS");
   ProfileSetup.TypeGoal (lit " Launch MVP "); ProfileSetup.ClickAddGoal].

Definition filledPage : ProfileSetup.Page :=
  ProfileSetup.interact sampleProfileEnv fillProfile ProfileSetup.bootPage.

(** A signed-in user with a profile, looking at a weekly summary. *)
Definition summaryOpen : App.State :=
  {| App.user := Some (lit "u1"); App.loading := false;
     App.currentPage := lit "summaries"; App.viewingReflection := None;
     App.viewingSummary := Some (lit "1714953600000");
     App.profileCompleted := true |}.

(** * Properties *)

(** ** Strings and elapsed time *)

Lemma trimStart_blank s : forallb isWhiteSpace s = true -> trimStart s = [].
Proof. induction s as [|c s IH]; simpl; [done|]. destruct (isWhiteSpace c); simpl; auto. discriminate. Qed.

Lemma trimStart_nil_blank s : trimStart s = [] -> forallb isWhiteSpace s = true.
Proof. induction s as [|c s IH]; simpl; [done|]. destruct (isWhiteSpace c); simpl; auto. discriminate. Qed.

Lemma trimStart_suffix s : exists p, s = p ++ trimStart s /\ forallb isWhiteSpace p = true.
Proof.
  induction s as [|c s [p [Hp Hb]]]; simpl.
  - by exists [].
  - destruct (isWhiteSpace c) eqn:Hc.
    + exists (c :: p). simpl. rewrite Hc, Hb. split; [by f_equal|done].
    + by exists [].
Qed.

Lemma forallb_isWhiteSpace_rev s :
  forallb isWhiteSpace (rev s) = forallb isWhiteSpace s.
Proof.
  induction s as [|c s IH]; simpl; [done|].
  rewrite forallb_app, IH. simpl. rewrite andb_true_r. apply andb_comm.
Qed.

Lemma trim_blank_iff s : trim s = [] <-> forallb isWhiteSpace s = true.
Proof.
  unfold trim, trimEnd. split.
  - intros H. apply (f_equal (@rev N)) in H. rewrite rev_involutive in H. simpl in H.
    apply trimStart_nil_blank in H. rewrite forallb_isWhiteSpace_rev in H.
    destruct (trimStart_suffix s) as [p [Hs Hp]]. rewrite Hs, forallb_app, Hp, H. done.
  - intros H. rewrite (trimStart_blank s H). done.
Qed.

Lemma elapsed_ge_20 now start :
  Qle_bool 20 (elapsedMinutes now start) = (1200000 <=? now - start).
Proof.
  unfold elapsedMinutes. change (1000 * 60) with 60000.
  unfold Qle_bool, Qdiv, Qmult, Qinv. cbn. rewrite Pos.mul_1_l.
  apply eq_true_iff_eq. rewrite !Z.leb_le. lia.
Qed.

Lemma elapsed_ge_20_iff now start :
  (20 <= elapsedMinutes now start)%Q <-> 1200000 <= now - start.
Proof. rewrite <- Qle_bool_iff, elapsed_ge_20. apply Z.leb_le. Qed.

(** ** The handlers, step by step *)

Ltac unfold_engine :=
  cbv beta iota zeta delta
    [exec handle outcomeOf typed mounted sendMessage startReflection loadTodaysReflection
     generateContextualQuestion analyzeConversationContext saveReflection
     tryCatch tryFinally mbind M_bind mret M_ret throw ask modify withComponent emit
     setMessages setInput setIsLoading setHasStarted setSessionState
     Date_now countAiCall blink_ai_generateObject blink_ai_generateText
     localStorage_setItem localStorage_getItem console_error toast
     component localStorage clockReads aiCalls storageWrites trace
     messages input isLoading hasStarted sessionState fst snd default].

Lemma analyze_spec hist e m :
  exists a evs k,
    Analysed (world e) (aiCalls m) hist a evs k /\
    analyzeConversationContext hist e m =
      (Returned a,
       {| component := component m; localStorage := localStorage m;
          clockReads := clockReads m; aiCalls := (aiCalls m + k)%nat;
          storageWrites := storageWrites m; trace := trace m ++ evs |}).
Proof.
  destruct m as [c ls cr ai sw tr]. cbn [component localStorage clockReads aiCalls storageWrites trace].
  unfold analyzeConversationContext.
  destruct (Nat.ltb_spec (length hist) 2) as [Hlt|Hge].
  - eexists _, [], 0%nat. split; [by constructor|].
    unfold mret, M_ret. by rewrite Nat.add_0_r, app_nil_r.
  - destruct (generateObject (world e) ai (analysisRequest hist)) as [a|] eqn:Hg.
    + eexists a, _, 1%nat. split; [by apply AnalysisReturned|].
      unfold_engine. fold (analysisRequest hist). rewrite Hg.
      by rewrite Nat.add_1_r.
    + eexists _, _, 1%nat. split; [by apply AnalysisFailed|].
      unfold_engine. fold (analysisRequest hist). rewrite Hg.
      by rewrite Nat.add_1_r, <- app_assoc.
Qed.

Lemma generate_spec hist s e m :
  exists text evs k,
    Replied (world e) (aiCalls m) hist s (reading e m 0) text evs k /\
    generateContextualQuestion hist s e m =
      (Returned text,
       {| component := component m; localStorage := localStorage m;
          clockReads := S (clockReads m); aiCalls := (aiCalls m + k)%nat;
          storageWrites := storageWrites m; trace := trace m ++ evs |}).
Proof.
  unfold reading. rewrite Nat.add_0_r.
  destruct m as [c ls cr ai sw tr].
  cbn [component localStorage clockReads aiCalls storageWrites trace].
  unfold generateContextualQuestion, mbind, M_bind, Date_now.
  cbn [component localStorage clockReads aiCalls storageWrites trace].
  set (now := clock (world e) cr).
  destruct (shouldEndSession s (elapsedMinutes now (startTime s))) eqn:Hend.
  - exists closingMessage, [], 0%nat. split; [by constructor|].
    unfold mret, M_ret. by rewrite Nat.add_0_r, app_nil_r.
  - match goal with
    | |- context [analyzeConversationContext ?h ?e ?m] =>
        destruct (analyze_spec h e m) as (a & evs & k & Ha & ->)
    end.
    cbn [component localStorage clockReads aiCalls storageWrites trace] in *.
    fold (contextPromptOf hist s now a).
    destruct (generateText (world e) (ai + k) (contextPromptOf hist s now a))
      as [text|] eqn:Hg.
    + eexists text, _, _. split; [by eapply ReplyGenerated|].
      unfold_engine. rewrite Hg. by rewrite Nat.add_assoc, Nat.add_1_r, <- app_assoc.
    + eexists _, _, _. split; [by eapply ReplyFallback|].
      unfold_engine. rewrite Hg.
      by rewrite Nat.add_assoc, Nat.add_1_r, <- !app_assoc.
Qed.

Lemma sendMessage_blocked e m :
  sendBlocked (component m) = true -> sendMessage (component m) e m = (Returned tt, m).
Proof. unfold sendBlocked, sendMessage. intros ->. reflexivity. Qed.

Lemma save_spec c msgs s e m :
  saveReflection c msgs (Some s) e m =
    (Returned tt,
     let data := {| rd_messages := msgs; rd_sessionState := s;
                    rd_date := todayDate e; rd_userId := user_id e;
                    rd_updatedAt := reading e m 0 |} in
     {| component := component m;
        localStorage := storeAfterSave e m data;
        clockReads := S (clockReads m); aiCalls := aiCalls m;
        storageWrites := S (storageWrites m);
        trace := trace m ++ saveEvents e m data |}).
Proof.
  unfold reading, storeAfterSave, saveEvents. rewrite Nat.add_0_r.
  destruct m as [c0 ls cr ai sw tr]. unfold_engine.
  destruct (setItemOk (world e) sw); unfold_engine.
  - reflexivity.
  - by rewrite <- app_assoc.
Qed.

Lemma turn_shape e m :
  sendBlocked (component m) = false ->
  let c := component m in
  let updated := withQuestionCount (questionCount (sessionState c) + 1) (sessionState c) in
  exists text evs k,
    Replied (world e) (aiCalls m) (messages c ++ [userMessageOf e m]) updated
      (reading e m 2) text evs k /\
    sendMessage c e m =
      (Returned tt,
       {| component :=
            {| messages := rd_messages (turnRecord e m text);
               input := []; isLoading := false; hasStarted := hasStarted c;
               sessionState := rd_sessionState (turnRecord e m text) |};
          localStorage := storeAfterSave e m (turnRecord e m text);
          clockReads := (clockReads m + 7)%nat;
          aiCalls := (aiCalls m + k)%nat;
          storageWrites := S (storageWrites m);
          trace := trace m ++ evs ++ saveEvents e m (turnRecord e m text) |}).
Proof.
  intros Hguard c updated. subst c updated.
  unfold sendMessage. unfold sendBlocked in Hguard. rewrite Hguard.
  unfold tryFinally, tryCatch, mbind at 1 2 3 4 5, M_bind, Date_now, setMessages, setInput,
    setIsLoading, modify, withComponent.
  cbn [component localStorage clockReads aiCalls storageWrites trace
       messages input isLoading hasStarted sessionState].
  unfold mbind at 1, M_bind.
  match goal with
  | |- context [generateContextualQuestion ?h ?s ?e ?m] =>
      destruct (generate_spec h s e m) as (text & evs & k & HR & Heq)
  end.
  rewrite Heq. clear Heq.
  cbn [component localStorage clockReads aiCalls storageWrites trace
       messages input isLoading hasStarted sessionState] in *.
  unfold mbind, M_bind, Date_now, setMessages, setSessionState, setIsLoading,
    modify, withComponent.
  cbn [component localStorage clockReads aiCalls storageWrites trace
       messages input isLoading hasStarted sessionState].
  rewrite save_spec.
  cbn [component localStorage clockReads aiCalls storageWrites trace
       messages input isLoading hasStarted sessionState].
  exists text, evs, k.
  unfold turnRecord, userMessageOf, assistantMessageOf, storeAfterSave, saveEvents,
    reading in *.
  cbn [component localStorage clockReads aiCalls storageWrites trace
       messages input isLoading hasStarted sessionState
       rd_messages rd_sessionState startTime withQuestionCount] in *.
  rewrite ?Nat.add_succ_r, ?Nat.add_0_r in *.
  split; [exact HR|].
  by rewrite <- !app_assoc.
Qed.

Lemma start_shape e m :
  startReflection (component m) e m =
    (Returned tt,
     {| component :=
          {| messages := [welcomeMessageOf e m];
             input := input (component m); isLoading := false;
             hasStarted := true;
             sessionState := freshSessionState (reading e m 0) |};
        localStorage := storeAfterSave e m (startRecord e m);
        clockReads := (clockReads m + 4)%nat;
        aiCalls := aiCalls m;
        storageWrites := S (storageWrites m);
        trace := trace m ++ saveEvents e m (startRecord e m) |}).
Proof.
  unfold startReflection.
  unfold mbind, M_bind, Date_now, setMessages, setSessionState, setIsLoading,
    setHasStarted, modify, withComponent.
  cbn [component localStorage clockReads aiCalls storageWrites trace
       messages input isLoading hasStarted sessionState].
  rewrite save_spec.
  unfold startRecord, welcomeMessageOf, storeAfterSave, saveEvents, reading.
  cbn [component localStorage clockReads aiCalls storageWrites trace
       messages input isLoading hasStarted sessionState].
  by rewrite ?Nat.add_succ_r, ?Nat.add_0_r.
Qed.

(** ** Reading the result of a handler *)

Lemma sendBlocked_false c :
  trim (input c) <> [] -> isLoading c = false ->
  isComplete (sessionState c) = false -> sendBlocked c = false.
Proof.
  unfold sendBlocked. intros Ht -> ->.
  destruct (trim (input c)); [done|reflexivity].
Qed.

Lemma handle_eq h e m o m' : h (component m) e m = (o, m') -> handle h e m = m'.
Proof. unfold handle. by intros ->. Qed.

Lemma newEvents_app m m' evs :
  trace m' = trace m ++ evs -> newEvents m m' = evs.
Proof. unfold newEvents. intros ->. apply drop_app_length. Qed.

Lemma newEvents_same m : newEvents m m = [].
Proof. apply newEvents_app. by rewrite app_nil_r. Qed.

Lemma saveEvents_no_generator e m data :
  Forall (fun ev => isGeneratorEvent ev = false) (saveEvents e m data).
Proof.
  unfold saveEvents. destruct (setItemOk _ _); repeat constructor.
Qed.

Lemma saveEvents_write e m data :
  In (EvSetItem (reflectionKey e) data (setItemOk (world e) (storageWrites m)))
     (saveEvents e m data).
Proof. left. reflexivity. Qed.

Lemma storeAfterSave_accepted e m data :
  setItemOk (world e) (storageWrites m) = true ->
  storeAfterSave e m data !! reflectionKey e = Some data.
Proof. unfold storeAfterSave. intros ->. apply lookup_insert_eq. Qed.

Lemma storeAfterSave_refused e m data :
  setItemOk (world e) (storageWrites m) = false ->
  storeAfterSave e m data = localStorage m.
Proof. unfold storeAfterSave. by intros ->. Qed.


(** ** The end condition and the clock *)

Lemma shouldEnd_late s now :
  (20 <= elapsedMinutes now (startTime s))%Q ->
  shouldEndSession s (elapsedMinutes now (startTime s)) = true.
Proof.
  intros H. unfold shouldEndSession.
  apply Qle_bool_iff in H. rewrite H. by rewrite orb_true_r.
Qed.

Lemma elapsed_mono now now' start :
  now <= now' ->
  (20 <= elapsedMinutes now start)%Q -> (20 <= elapsedMinutes now' start)%Q.
Proof. rewrite !elapsed_ge_20_iff. lia. Qed.

Lemma reading_mono e m i j :
  monotoneClock (world e) -> (i <= j)%nat -> reading e m i <= reading e m j.
Proof. intros Hm Hij. apply Hm. lia. Qed.

(** ** What the generator's failures leave in the trace *)

Lemma Analysed_events w n hist a evs k :
  Analysed w n hist a evs k ->
  forall p r, ~ In (EvGenerateText p r) evs.
Proof. intros H p r. destruct H; simpl; intuition discriminate. Qed.


Lemma Analysed_failure w n hist a evs k request :
  Analysed w n hist a evs k ->
  In (EvGenerateObject request None) evs ->
  a = {| ta_topics := []; currentTopicSpecificity := 1;
         shouldMoveToNewTopic := false; suggestedNextTopic := None |}.
Proof.
  intros H Hin. destruct H as [Hlen | object Hlen Hans | Hlen Hans]; simpl in Hin.
  - contradiction.
  - destruct Hin as [Hev|[]]. discriminate Hev.
  - reflexivity.
Qed.

Lemma Replied_analysis_failure w n hist s now text evs k request :
  Replied w n hist s now text evs k ->
  In (EvGenerateObject request None) evs ->
  exists result,
    In (EvGenerateText
          (contextPromptOf hist s now
             {| ta_topics := []; currentTopicSpecificity := 1;
                shouldMoveToNewTopic := false; suggestedNextTopic := None |})
          result) evs.
Proof.
  intros H Hin.
  destruct H as [Hend | a evs k t Hend Ha Hans | a evs k Hend Ha Hans].
  - contradiction.
  - apply in_app_or in Hin as [Hin|[Hev|[]]]; [|discriminate Hev].
    rewrite <- (Analysed_failure _ _ _ _ _ _ _ Ha Hin).
    exists (Some t). apply in_or_app. right. by left.
  - apply in_app_or in Hin as [Hin|[Hev|[Hev|[]]]]; try discriminate.
    rewrite <- (Analysed_failure _ _ _ _ _ _ _ Ha Hin).
    exists None. apply in_or_app. right. by left.
Qed.

Lemma Replied_text_failure w n hist s now text evs k prompt :
  Replied w n hist s now text evs k ->
  In (EvGenerateText prompt None) evs ->
  text = if maxQuestions s - questionCount s <=? 1 then fallbackLastQuestion
         else fallbackQuestion.
Proof.
  intros H Hin.
  destruct H as [Hend | a evs k t Hend Ha Hans | a evs k Hend Ha Hans].
  - contradiction.
  - apply in_app_or in Hin as [Hin|[Hev|[]]]; [|discriminate Hev].
    by apply (Analysed_events _ _ _ _ _ _ Ha) in Hin.
  - reflexivity.
Qed.

Lemma saveEvents_In_generator e m data ev :
  In ev (saveEvents e m data) -> isGeneratorEvent ev = false.
Proof.
  intros Hin. pose proof (saveEvents_no_generator e m data) as HF.
  rewrite Forall_forall in HF. apply HF. by apply list_elem_of_In.
Qed.

(** Whatever the state, [sendMessage] returns normally; when it is not blocked
    it is described by [turn_shape]. *)
Lemma sendMessage_cases e m :
  (sendBlocked (component m) = true /\ handle sendMessage e m = m) \/
  (sendBlocked (component m) = false /\
   exists text evs k,
     Replied (world e) (aiCalls m)
       (messages (component m) ++ [userMessageOf e m])
       (withQuestionCount (questionCount (sessionState (component m)) + 1)
          (sessionState (component m)))
       (reading e m 2) text evs k /\
     newEvents m (handle sendMessage e m)
       = evs ++ saveEvents e m (turnRecord e m text) /\
     component (handle sendMessage e m) =
       {| messages := rd_messages (turnRecord e m text);
          input := []; isLoading := false;
          hasStarted := hasStarted (component m);
          sessionState := rd_sessionState (turnRecord e m text) |} /\
     localStorage (handle sendMessage e m)
       = storeAfterSave e m (turnRecord e m text)).
Proof.
  destruct (sendBlocked (component m)) eqn:Hb.
  - left. split; [done|]. by rewrite (handle_eq _ _ _ _ _ (sendMessage_blocked e m Hb)).
  - right. split; [done|].
    destruct (turn_shape e m Hb) as (text & evs & k & HR & Heq).
    exists text, evs, k. rewrite (handle_eq _ _ _ _ _ Heq).
    split; [exact HR|]. split; [|done].
    by apply newEvents_app.
Qed.


(** No exception leaves [sendMessage]: the generator's and the store's are
    caught where they arise. *)
Lemma sendMessage_returns e m : outcomeOf sendMessage e m = Returned tt.
Proof.
  unfold outcomeOf. destruct (sendBlocked (component m)) eqn:Hb.
  - by rewrite sendMessage_blocked.
  - destruct (turn_shape e m Hb) as (text & evs & k & _ & ->). reflexivity.
Qed.

(** ** Properties of session states kept by every operation *)

Lemma load_cases e m :
  handle loadTodaysReflection e m = m \/
  exists data,
    localStorage m !! reflectionKey e = Some data /\
    handle loadTodaysReflection e m =
      withComponent (fun c =>
        {| messages := rd_messages data; input := input c;
           isLoading := isLoading c;
           hasStarted := (0 <? length (rd_messages data))%nat;
           sessionState := rd_sessionState data |}) m.
Proof.
  unfold handle, loadTodaysReflection, mbind, M_bind, ask.
  destruct (negb (truthy (user_id e))); [by left|].
  unfold tryCatch, mbind, M_bind, localStorage_getItem.
  destruct (localStorage m !! reflectionKey e) as [data|] eqn:Hget; [|by left].
  right. exists data. split; [done|].
  destruct m as [c ls cr ai sw tr]. reflexivity.
Qed.

Lemma storeAfterSave_lookup e m data k r :
  storeAfterSave e m data !! k = Some r ->
  r = data \/ localStorage m !! k = Some r.
Proof.
  unfold storeAfterSave. destruct (setItemOk _ _); [|by right].
  destruct (decide (reflectionKey e = k)) as [<-|Hne].
  - rewrite lookup_insert_eq. intros [= <-]. by left.
  - rewrite lookup_insert_ne by done. by right.
Qed.

Section Preservation.

Variable P : SessionState -> Prop.
Hypothesis P_initial : P initialSessionState.
Hypothesis P_fresh : forall now, P (freshSessionState now).
Hypothesis P_turn : forall s elapsed,
  P s -> isComplete s = false ->
  let updated := withQuestionCount (questionCount s + 1) s in
  P (withIsComplete (shouldEndSession updated elapsed) updated).

Lemma start_preserves e m :
  sessionsAll P m -> sessionsAll P (handle startReflection e m).
Proof.
  intros [Hc Hs]. rewrite (handle_eq _ _ _ _ _ (start_shape e m)). split.
  - apply P_fresh.
  - cbn [localStorage]. intros k r Hk.
    apply storeAfterSave_lookup in Hk as [-> | Hk]; [apply P_fresh | eauto].
Qed.

Lemma send_preserves e m :
  sessionsAll P m -> sessionsAll P (handle sendMessage e m).
Proof.
  intros [Hc Hs].
  destruct (sendMessage_cases e m)
    as [[_ ->] | [Hb (text & evs & k & _ & _ & Hcomp & Hstore)]]; [by split|].
  assert (Hopen : isComplete (sessionState (component m)) = false).
  { unfold sendBlocked in Hb. by apply orb_false_elim in Hb as [_ Hb]. }
  assert (Hnew : P (rd_sessionState (turnRecord e m text))).
  { unfold turnRecord. cbn [rd_sessionState]. by apply P_turn. }
  split.
  - rewrite Hcomp. exact Hnew.
  - rewrite Hstore. intros key r Hk.
    apply storeAfterSave_lookup in Hk as [-> | Hk]; [exact Hnew | eauto].
Qed.

Lemma load_preserves e m :
  sessionsAll P m -> sessionsAll P (handle loadTodaysReflection e m).
Proof.
  intros [Hc Hs]. destruct (load_cases e m) as [-> | (data & Hget & ->)]; [by split|].
  split; [|exact Hs]. cbn [withComponent component sessionState]. eauto.
Qed.

Lemma exec_preserves e op m :
  sessionsAll P m -> sessionsAll P (exec e op m).
Proof.
  intros H. destruct op as [| |text]; cbn [exec].
  - apply load_preserves. destruct H as [_ Hs]. split; [exact P_initial|exact Hs].
  - by apply start_preserves.
  - apply send_preserves. destruct H as [Hc Hs]. split; [exact Hc|exact Hs].
Qed.

Lemma run_preserves e ops m :
  sessionsAll P m -> sessionsAll P (run e ops m).
Proof.
  revert m. induction ops as [|op ops IH]; intros m H; [exact H|].
  cbn [run fold_left]. apply IH. by apply exec_preserves.
Qed.

End Preservation.

Lemma paced_initial : paced initialSessionState.
Proof. unfold paced. cbn. lia. Qed.

Lemma paced_fresh now : paced (freshSessionState now).
Proof. unfold paced. cbn. lia. Qed.

Lemma paced_turn s elapsed :
  paced s -> isComplete s = false ->
  let updated := withQuestionCount (questionCount s + 1) s in
  paced (withIsComplete (shouldEndSession updated elapsed) updated).
Proof.
  intros (Hmax & Hcount & Hopen) Hc updated. specialize (Hopen Hc).
  unfold paced, updated, shouldEndSession.
  cbn [withIsComplete withQuestionCount maxQuestions questionCount isComplete].
  split; [done|]. split; [lia|].
  intros Hend. apply orb_false_elim in Hend as [Hend _].
  apply orb_false_elim in Hend as [Hend _].
  rewrite Z.geb_leb in Hend. apply Z.leb_gt in Hend. lia.
Qed.

Lemma boot_paced : sessionsAll paced bootMachine.
Proof. split; [apply paced_initial|]. intros k r Hk. unfold bootMachine in Hk. cbn [localStorage] in Hk.
  by rewrite lookup_empty in Hk. Qed.

Lemma pacedWorld_monotone step : 0 <= step -> monotoneClock (pacedWorld step).
Proof. intros Hs i j Hij. simpl. nia. Qed.

(** ** The claims *)

(** Claim C1.  In a run from a machine whose sessions are paced (the booted one
    is, [boot_paced]), an operation that turns [isComplete] from false to true
    leaves a question count of at most [maxQuestions], which is 5.  Once
    [isComplete] is true, [sendMessage] returns the machine unchanged, so the
    flag cannot go back to false; and in any state [sendMessage] either returns
    the machine unchanged (the early return) or sets [isComplete] to
    [questionCount + 1 >= maxQuestions || elapsedMinutes >= 20 || isComplete],
    a disjunction that contains the flag's previous value. *)
Theorem completion_is_bounded_and_permanent e :
  (forall m0 ops op,
     sessionsAll paced m0 ->
     let m := run e ops m0 in
     let m' := exec e op m in
     isComplete (sessionState (component m)) = false ->
     isComplete (sessionState (component m')) = true ->
     questionCount (sessionState (component m'))
       <= maxQuestions (sessionState (component m')) /\
     maxQuestions (sessionState (component m')) = 5) /\
  (forall m,
     isComplete (sessionState (component m)) = true ->
     handle sendMessage e m = m) /\
  (forall m,
     let s := sessionState (component m) in
     let m' := handle sendMessage e m in
     m' = m \/
     isComplete (sessionState (component m')) =
       (questionCount s + 1 >=? maxQuestions s)
       || Qle_bool 20 (elapsedMinutes (reading e m 5) (startTime s))
       || isComplete s).
Proof.
  split; [|split].
  - intros m0 ops op Hm0 m m' _ _.
    assert (H : sessionsAll paced m').
    { apply exec_preserves, run_preserves;
        auto using paced_initial, paced_fresh, paced_turn. }
    destruct H as [(Hmax & Hcount & _) _]. lia.
  - intros m Hc. apply (handle_eq _ _ _ (Returned tt)).
    apply sendMessage_blocked. unfold sendBlocked. rewrite Hc. apply orb_true_r.
  - intros m s m'. subst s m'.
    destruct (sendMessage_cases e m)
      as [[_ ->] | [_ (text & evs & k & _ & _ & -> & _)]]; [by left|].
    right. reflexivity.
Qed.

Lemma completion_is_bounded_and_permanent_witness :
  let e := envOf calmWorld in
  let m := run e (StartSession :: repeat (SubmitUserTurn shipped) 4) bootMachine in
  let m' := exec e (SubmitUserTurn shipped) m in
  isComplete (sessionState (component m)) = false /\
  isComplete (sessionState (component m')) = true /\
  questionCount (sessionState (component m')) <= maxQuestions (sessionState (component m')) /\
  maxQuestions (sessionState (component m')) = 5 /\
  handle sendMessage e m' = m'.
Proof.
  intros e m m'.
  assert (Hopen : isComplete (sessionState (component m)) = false)
    by (vm_compute; reflexivity).
  assert (Hdone : isComplete (sessionState (component m')) = true)
    by (vm_compute; reflexivity).
  destruct (completion_is_bounded_and_permanent e) as (Hbound & Hstay & _).
  destruct (Hbound bootMachine (StartSession :: repeat (SubmitUserTurn shipped) 4)
              (SubmitUserTurn shipped) boot_paced Hopen Hdone) as [Hle Hmax].
  split; [exact Hopen|]. split; [exact Hdone|]. split; [exact Hle|].
  split; [exact Hmax | exact (Hstay m' Hdone)].
Defined.

(** Claim C2.  Under a clock that does not run backwards, a turn that passes
    the guard and is submitted twenty minutes or more after [startTime] appends
    the user's message and then the fixed closing message, sets [isComplete],
    and makes no request to the generator, whatever the question count. *)
Theorem closing_after_twenty_minutes e m :
  monotoneClock (world e) ->
  trim (input (component m)) <> [] ->
  isLoading (component m) = false ->
  isComplete (sessionState (component m)) = false ->
  (20 <= elapsedMinutes (reading e m 0) (startTime (sessionState (component m))))%Q ->
  let m' := handle sendMessage e m in
  messages (component m') =
    messages (component m) ++
      [ {| id := toString (reading e m 0); role := user;
           content := trim (input (component m)); timestamp := reading e m 1 |};
        {| id := toString (reading e m 3 + 1); role := assistant;
           content := closingMessage; timestamp := reading e m 4 |} ] /\
  isComplete (sessionState (component m')) = true /\
  aiCalls m' = aiCalls m /\
  Forall (fun ev => isGeneratorEvent ev = false) (newEvents m m').
Proof.
  intros Hmono Ht Hl Hc Hlate m'. subst m'.
  destruct (turn_shape e m (sendBlocked_false _ Ht Hl Hc))
    as (text & evs & k & HR & Heq).
  rewrite (handle_eq _ _ _ _ _ Heq).
  rewrite (newEvents_app m _ (evs ++ saveEvents e m (turnRecord e m text)))
    by reflexivity.
  cbn [component messages sessionState aiCalls turnRecord rd_messages
       rd_sessionState withIsComplete isComplete].
  assert (Hlate2 : shouldEndSession
            (withQuestionCount (questionCount (sessionState (component m)) + 1)
               (sessionState (component m)))
            (elapsedMinutes (reading e m 2) (startTime (sessionState (component m))))
          = true).
  { apply (shouldEnd_late (withQuestionCount _ _)). cbn [withQuestionCount startTime].
    eapply elapsed_mono; [|exact Hlate]. apply reading_mono; [done|lia]. }
  inversion HR as [Hend Htext Hevs Hk | a evs' k' t Hend | a evs' k' Hend]; subst;
    cbn [withQuestionCount startTime] in Hend; try congruence.
  repeat split.
  - apply (shouldEnd_late (withQuestionCount _ _)). cbn [withQuestionCount startTime].
    eapply elapsed_mono; [|exact Hlate]. apply reading_mono; [done|lia].
  - lia.
  - apply saveEvents_no_generator.
Qed.

Lemma closing_after_twenty_minutes_witness :
  let e := envOf (pacedWorld 400000) in
  let m := readyMachine (pacedWorld 400000) in
  let m' := handle sendMessage e m in
  content <$> last (messages (component m')) = Some closingMessage /\
  isComplete (sessionState (component m')) = true /\
  aiCalls m' = aiCalls m.
Proof.
  intros e m m'.
  destruct (closing_after_twenty_minutes e m) as (Hmsgs & Hdone & Hai & _).
  - apply pacedWorld_monotone. lia.
  - vm_compute. discriminate.
  - reflexivity.
  - reflexivity.
  - vm_compute. discriminate.
  - subst m'. rewrite Hmsgs, last_app.
    split; [reflexivity|]. split; [exact Hdone | exact Hai].
Defined.

(** Claim C3.  On a complete session [sendMessage] is a no-op: it returns
    normally and the machine (messages, session state, store, counters and
    trace) is the one it started from. *)
Theorem complete_session_ignores_turns e m :
  isComplete (sessionState (component m)) = true ->
  sendMessage (component m) e m = (Returned tt, m).
Proof.
  intros Hc. apply sendMessage_blocked. unfold sendBlocked.
  rewrite Hc. apply orb_true_r.
Qed.

Lemma complete_session_ignores_turns_witness :
  sendMessage (component completedMachine) (envOf calmWorld) completedMachine
  = (Returned tt, completedMachine).
Proof.
  apply (complete_session_ignores_turns (envOf calmWorld) completedMachine).
  vm_compute. reflexivity.
Defined.

(** Claim C4.  When the input trims to the empty string (by [trim_blank_iff],
    when it consists of white space only), [sendMessage] returns at once: the
    machine is unchanged, so nothing is appended, no state changes and nothing
    is written to the store. *)
Theorem blank_input_is_ignored e m :
  trim (input (component m)) = [] ->
  sendMessage (component m) e m = (Returned tt, m).
Proof.
  intros Ht. apply sendMessage_blocked. unfold sendBlocked. by rewrite Ht.
Qed.

Lemma blank_input_is_ignored_witness :
  let m := typed (lit "   ") (run (envOf calmWorld) [StartSession] bootMachine) in
  sendMessage (component m) (envOf calmWorld) m = (Returned tt, m).
Proof.
  intros m. apply (blank_input_is_ignored (envOf calmWorld) m). vm_compute. reflexivity.
Defined.

(** Claim C5.  If the structured analysis request of a turn rejects, the turn
    returns normally: it goes on with the neutral analysis (no topics,
    specificity 1, no move, no suggestion) in the prompt of the text request,
    appends the user's message followed by exactly one assistant message, and
    hands the updated record to the store, where it is found whenever the
    store accepts the write. *)
Theorem analysis_failure_is_masked e m request :
  In (EvGenerateObject request None) (newEvents m (handle sendMessage e m)) ->
  let m' := handle sendMessage e m in
  let record :=
    {| rd_messages := messages (component m');
       rd_sessionState := sessionState (component m');
       rd_date := todayDate e; rd_userId := user_id e;
       rd_updatedAt := reading e m 6 |} in
  outcomeOf sendMessage e m = Returned tt /\
  exists text prompt result,
    cp_analysis prompt =
      {| ta_topics := []; currentTopicSpecificity := 1;
         shouldMoveToNewTopic := false; suggestedNextTopic := None |} /\
    In (EvGenerateText prompt result) (newEvents m m') /\
    messages (component m') =
      messages (component m) ++
        [ {| id := toString (reading e m 0); role := user;
             content := trim (input (component m)); timestamp := reading e m 1 |};
          {| id := toString (reading e m 3 + 1); role := assistant;
             content := text; timestamp := reading e m 4 |} ] /\
    In (EvSetItem (reflectionKey e) record (setItemOk (world e) (storageWrites m)))
       (newEvents m m') /\
    (setItemOk (world e) (storageWrites m) = true ->
     localStorage m' !! reflectionKey e = Some record).
Proof.
  intros Hin m' record. subst m' record.
  split; [apply sendMessage_returns|].
  destruct (sendMessage_cases e m)
    as [[_ Hsame] | [_ (text & evs & k & HR & Hev & Hcomp & Hstore)]].
  - rewrite Hsame, newEvents_same in Hin. contradiction.
  - rewrite Hev in Hin |- *. rewrite Hcomp, Hstore.
    cbn [messages sessionState].
    apply in_app_or in Hin as [Hin | Hin];
      [|apply saveEvents_In_generator in Hin; discriminate Hin].
    destruct (Replied_analysis_failure _ _ _ _ _ _ _ _ _ HR Hin) as [result Hres].
    eexists text, _, result. split; [|split; [apply in_or_app; left; exact Hres|]].
    { reflexivity. }
    split; [reflexivity|].
    split; [apply in_or_app; right; apply saveEvents_write|].
    apply storeAfterSave_accepted.
Qed.

Lemma analysis_failure_is_masked_witness :
  let e := envOf noAnalysisWorld in
  let m := readyMachine noAnalysisWorld in
  let m' := handle sendMessage e m in
  In (EvGenerateObject
        (analysisRequest (messages (component m) ++ [userMessageOf e m])) None)
     (newEvents m m') /\
  length (messages (component m')) = 3%nat /\
  (rd_messages <$> localStorage m' !! reflectionKey e) = Some (messages (component m')).
Proof.
  intros e m m'.
  assert (Hin : In (EvGenerateObject
                      (analysisRequest (messages (component m) ++ [userMessageOf e m]))
                      None) (newEvents m m')).
  { vm_compute. left. reflexivity. }
  split; [exact Hin|].
  destruct (analysis_failure_is_masked e m _ Hin)
    as (_ & text & prompt & result & _ & _ & Hmsgs & _ & Hstore).
  fold m' in Hmsgs, Hstore. split.
  - rewrite Hmsgs. vm_compute. reflexivity.
  - rewrite Hstore; [reflexivity | vm_compute; reflexivity].
Defined.

(** Claim C6.  If the text request of a turn rejects, the assistant message
    appended is one of the two fixed templates, chosen by the slots that remain,
    [maxQuestions - (questionCount + 1)]: [fallbackLastQuestion] (one specific
    action ... tomorrow) when at most one remains, [fallbackQuestion] (one
    specific challenge ... move forward) otherwise. *)
Theorem question_failure_falls_back e m prompt :
  In (EvGenerateText prompt None) (newEvents m (handle sendMessage e m)) ->
  let s := sessionState (component m) in
  let questionsRemaining := maxQuestions s - (questionCount s + 1) in
  messages (component (handle sendMessage e m)) =
    messages (component m) ++
      [ {| id := toString (reading e m 0); role := user;
           content := trim (input (component m)); timestamp := reading e m 1 |};
        {| id := toString (reading e m 3 + 1); role := assistant;
           content := if questionsRemaining <=? 1 then fallbackLastQuestion
                      else fallbackQuestion;
           timestamp := reading e m 4 |} ].
Proof.
  intros Hin s questionsRemaining. subst s questionsRemaining.
  destruct (sendMessage_cases e m)
    as [[_ Hsame] | [_ (text & evs & k & HR & Hev & Hcomp & _)]].
  - rewrite Hsame, newEvents_same in Hin. contradiction.
  - rewrite Hev in Hin. rewrite Hcomp. cbn [messages].
    apply in_app_or in Hin as [Hin | Hin];
      [|apply saveEvents_In_generator in Hin; discriminate Hin].
    rewrite (Replied_text_failure _ _ _ _ _ _ _ _ _ HR Hin).
    reflexivity.
Qed.

Lemma question_failure_falls_back_witness :
  let e := envOf noTextWorld in
  let m := readyMachine noTextWorld in
  content <$> last (messages (component (handle sendMessage e m)))
  = Some fallbackQuestion.
Proof.
  intros e m.
  rewrite (question_failure_falls_back e m
             (contextPromptOf (messages (component m) ++ [userMessageOf e m])
                (withQuestionCount 1 (sessionState (component m)))
                (reading e m 2) fundingAnalysis)).
  - rewrite last_app. reflexivity.
  - vm_compute. right. left. reflexivity.
Defined.

(** Claim C7.  [startReflection] leaves the fresh session state (start time
    the clock's reading, no question asked, five allowed, not complete, no
    topic, no coverage, no focus) and a message list holding only the fixed
    opening message of the assistant; it makes no request to the generator, and
    hands the record of these two to the store under the key of the user and the
    date, where it is found whenever the store accepts the write. *)
Theorem start_establishes_fresh_session e m :
  let m' := handle startReflection e m in
  let opening :=
    {| id := toString (reading e m 1); role := assistant;
       content := welcomeContent; timestamp := reading e m 2 |} in
  let fresh :=
    {| startTime := reading e m 0; questionCount := 0; maxQuestions := 5;
       isComplete := false; topics := []; topicCoverage := ∅;
       currentFocus := None |} in
  let record :=
    {| rd_messages := [opening]; rd_sessionState := fresh;
       rd_date := todayDate e; rd_userId := user_id e;
       rd_updatedAt := reading e m 3 |} in
  sessionState (component m') = fresh /\
  messages (component m') = [opening] /\
  aiCalls m' = aiCalls m /\
  Forall (fun ev => isGeneratorEvent ev = false) (newEvents m m') /\
  In (EvSetItem (reflectionKey e) record (setItemOk (world e) (storageWrites m)))
     (newEvents m m') /\
  (setItemOk (world e) (storageWrites m) = true ->
   localStorage m' !! reflectionKey e = Some record).
Proof.
  intros m' opening fresh record. subst m'.
  rewrite (handle_eq _ _ _ _ _ (start_shape e m)).
  rewrite (newEvents_app m _ (saveEvents e m (startRecord e m))) by reflexivity.
  cbn [component messages sessionState aiCalls localStorage].
  change (startRecord e m) with record.
  repeat split.
  - apply saveEvents_no_generator.
  - apply saveEvents_write.
  - apply storeAfterSave_accepted.
Qed.

(** Against claim C8 as stated: a topic the analysis returned is absent from
    [topics] after the turn. *)
Lemma detected_topics_are_not_recorded :
  let m := run (envOf calmWorld) [StartSession; SubmitUserTurn shipped] bootMachine in
  In (lit "funding") (detectedTopics (trace m)) /\
  ~ In (lit "funding") (topics (sessionState (component m))).
Proof. vm_compute. split; [by left | by intros []]. Qed.

(** Claim C8, as amended.  [topics] is set to the empty list by
    [startReflection] and is left as it is by [sendMessage], whatever the
    analysis returns; over any run from the booted machine it stays empty. *)
Theorem topics_are_never_recorded e :
  (forall m, topics (sessionState (component (handle startReflection e m))) = []) /\
  (forall m, topics (sessionState (component (handle sendMessage e m)))
             = topics (sessionState (component m))) /\
  (forall ops, topics (sessionState (component (run e ops bootMachine))) = []).
Proof.
  split; [|split].
  - intros m. by rewrite (handle_eq _ _ _ _ _ (start_shape e m)).
  - intros m.
    destruct (sendMessage_cases e m)
      as [[_ ->] | [_ (text & evs & k & _ & _ & -> & _)]]; reflexivity.
  - intros ops.
    assert (H : sessionsAll (fun s => topics s = []) (run e ops bootMachine)).
    { apply run_preserves; [reflexivity | reflexivity | auto |].
      split; [reflexivity|]. intros k r Hk.
      unfold bootMachine in Hk. cbn [localStorage] in Hk.
      by rewrite lookup_empty in Hk. }
    exact (proj1 H).
Qed.

(** Claim C9.  A turn reads the clock once to choose between the closing
    message and a question (the third reading) and once more to set
    [isComplete] (the sixth).  When questions remain and the twenty minutes
    pass between the two readings, the turn sets [isComplete] although the
    message it appends comes from the question generation (the generator's text,
    or the fallback template if the request rejects). *)
Theorem completion_can_follow_a_generated_question e m :
  trim (input (component m)) <> [] ->
  isLoading (component m) = false ->
  isComplete (sessionState (component m)) = false ->
  questionCount (sessionState (component m)) + 1
    < maxQuestions (sessionState (component m)) ->
  (elapsedMinutes (reading e m 2) (startTime (sessionState (component m))) < 20)%Q ->
  (20 <= elapsedMinutes (reading e m 5) (startTime (sessionState (component m))))%Q ->
  let m' := handle sendMessage e m in
  isComplete (sessionState (component m')) = true /\
  exists prompt result,
    In (EvGenerateText prompt result) (newEvents m m') /\
    messages (component m') =
      messages (component m) ++
        [ {| id := toString (reading e m 0); role := user;
             content := trim (input (component m)); timestamp := reading e m 1 |};
          {| id := toString (reading e m 3 + 1); role := assistant;
             content :=
               match result with
               | Some text => text
               | None =>
                   if cp_questionsRemaining prompt <=? 1 then fallbackLastQuestion
                   else fallbackQuestion
               end;
             timestamp := reading e m 4 |} ].
Proof.
  intros Ht Hl Hc Hcount Hearly Hlate m'. subst m'.
  destruct (turn_shape e m (sendBlocked_false _ Ht Hl Hc))
    as (text & evs & k & HR & Heq).
  rewrite (handle_eq _ _ _ _ _ Heq).
  rewrite (newEvents_app m _ (evs ++ saveEvents e m (turnRecord e m text)))
    by reflexivity.
  cbn [component messages sessionState turnRecord rd_messages rd_sessionState
       withIsComplete isComplete].
  split.
  - apply (shouldEnd_late (withQuestionCount _ _)). exact Hlate.
  - assert (Hopen : shouldEndSession
              (withQuestionCount (questionCount (sessionState (component m)) + 1)
                 (sessionState (component m)))
              (elapsedMinutes (reading e m 2)
                 (startTime (sessionState (component m)))) = false).
    { unfold shouldEndSession. cbn [withQuestionCount questionCount maxQuestions isComplete].
      rewrite Hc, orb_false_r. apply orb_false_intro.
      - rewrite Z.geb_leb. apply Z.leb_gt. lia.
      - destruct (Qle_bool _ _) eqn:E; [|done].
        apply Qle_bool_iff in E. by apply Qle_not_lt in E. }
    inversion HR as [Hend | a evs' k' t Hend Ha Hans | a evs' k' Hend Ha Hans];
      subst; cbn [withQuestionCount startTime] in Hend; try congruence.
    + eexists _, (Some text). split; [apply in_or_app; left; apply in_or_app; right; by left|].
      reflexivity.
    + eexists _, None. split; [apply in_or_app; left; apply in_or_app; right; by left|].
      reflexivity.
Qed.

Lemma completion_can_follow_a_generated_question_witness :
  let e := envOf (pacedWorld 150000) in
  let m := readyMachine (pacedWorld 150000) in
  let m' := handle sendMessage e m in
  isComplete (sessionState (component m')) = true /\
  content <$> last (messages (component m')) = Some (lit "What is blocking the launch?") /\
  lit "What is blocking the launch?" <> closingMessage.
Proof.
  intros e m m'.
  destruct (completion_can_follow_a_generated_question e m)
    as (Hdone & prompt & result & Hin & Hmsgs).
  - vm_compute. discriminate.
  - reflexivity.
  - reflexivity.
  - vm_compute. reflexivity.
  - vm_compute. reflexivity.
  - vm_compute. discriminate.
  - subst m'. split; [exact Hdone|]. split; [|vm_compute; discriminate].
    vm_compute. reflexivity.
Defined.

(** Claim C10.  [startReflection] checks nothing: with a record already
    stored for the user and the date, whatever it holds, it returns normally
    with the fresh session state and the opening message alone in memory, and
    the record it writes holds that single message; the stored transcript is
    replaced as soon as the store accepts the write (a store that refuses it
    keeps the old record). *)
Theorem start_overwrites_existing_record e m old :
  localStorage m !! reflectionKey e = Some old ->
  let m' := handle startReflection e m in
  outcomeOf startReflection e m = Returned tt /\
  sessionState (component m') = freshSessionState (reading e m 0) /\
  messages (component m') = [welcomeMessageOf e m] /\
  hasStarted (component m') = true /\
  (setItemOk (world e) (storageWrites m) = true ->
   exists r, localStorage m' !! reflectionKey e = Some r /\
             rd_messages r = [welcomeMessageOf e m] /\
             rd_sessionState r = freshSessionState (reading e m 0)) /\
  (setItemOk (world e) (storageWrites m) = false ->
   localStorage m' !! reflectionKey e = Some old).
Proof.
  intros Hold m'. subst m'. unfold outcomeOf.
  rewrite (handle_eq _ _ _ _ _ (start_shape e m)), start_shape.
  cbn [fst component messages sessionState hasStarted localStorage].
  repeat split.
  - intros Hok. exists (startRecord e m). split; [|done].
    by apply storeAfterSave_accepted.
  - intros Hno. by rewrite storeAfterSave_refused.
Qed.

Lemma start_overwrites_existing_record_witness :
  let e := envOf calmWorld in
  let m := completedMachine in
  exists old,
    localStorage m !! reflectionKey e = Some old /\
    isComplete (rd_sessionState old) = true /\
    length (rd_messages old) = 11%nat /\
    exists r, localStorage (handle startReflection e m) !! reflectionKey e = Some r /\
              rd_messages r = [welcomeMessageOf e m] /\
              rd_sessionState r = freshSessionState (reading e m 0).
Proof.
  intros e m.
  destruct (localStorage m !! reflectionKey e) as [old|] eqn:Hold;
    [|vm_compute in Hold; discriminate].
  exists old. split; [reflexivity|].
  split; [vm_compute in Hold; injection Hold as <-; reflexivity|].
  split; [vm_compute in Hold; injection Hold as <-; reflexivity|].
  apply (start_overwrites_existing_record e m old Hold). reflexivity.
Defined.

(** * Further properties *)


(** ** Further properties of a turn *)

Lemma sendBlocked_true_iff c :
  sendBlocked c = true <->
  trim (input c) = [] \/ isLoading c = true \/ isComplete (sessionState c) = true.
Proof.
  unfold sendBlocked. rewrite !orb_true_iff.
  destruct (trim (input c)); simpl; intuition congruence.
Qed.

Lemma Replied_calls w n hist s now text evs k :
  Replied w n hist s now text evs k -> (k <= 2)%nat.
Proof.
  intros H.
  destruct H as [Hend | a evs k t Hend Ha Hans | a evs k Hend Ha Hans];
    [lia | destruct Ha; lia | destruct Ha; lia].
Qed.

(** Extra X1.  [sendMessage] leaves the machine exactly as it was if and only if
    the input trims to nothing, a handler is still running ([isLoading]) or the
    session is complete; in every other state it changes it. *)
Theorem sendMessage_idle_iff_blocked e m :
  handle sendMessage e m = m <->
  trim (input (component m)) = [] \/
  isLoading (component m) = true \/
  isComplete (sessionState (component m)) = true.
Proof.
  rewrite <- sendBlocked_true_iff. split.
  - intros Hsame. destruct (sendBlocked (component m)) eqn:Hb; [done|].
    destruct (turn_shape e m Hb) as (text & evs & k & _ & Heq).
    rewrite (handle_eq _ _ _ _ _ Heq) in Hsame.
    apply (f_equal clockReads) in Hsame. cbn [clockReads] in Hsame. lia.
  - intros Hb. by rewrite (handle_eq _ _ _ _ _ (sendMessage_blocked e m Hb)).
Qed.

(** Extra X2.  A turn that passes the guard appends the user's message and one
    reply, empties the input, ends with [isLoading] false and [hasStarted] as
    it was, raises [questionCount] by one and leaves every other field of the
    session state but [isComplete] alone; it reads the clock seven times,
    writes to the store once and calls the generator at most twice. *)
Theorem turn_bookkeeping e m :
  trim (input (component m)) <> [] ->
  isLoading (component m) = false ->
  isComplete (sessionState (component m)) = false ->
  let c := component m in
  let m' := handle sendMessage e m in
  let c' := component m' in
  (exists text,
     messages c' =
       messages c ++
         [ {| id := toString (reading e m 0); role := user;
              content := trim (input c); timestamp := reading e m 1 |};
           {| id := toString (reading e m 3 + 1); role := assistant;
              content := text; timestamp := reading e m 4 |} ]) /\
  input c' = [] /\ isLoading c' = false /\ hasStarted c' = hasStarted c /\
  sessionState c' =
    {| startTime := startTime (sessionState c);
       questionCount := questionCount (sessionState c) + 1;
       maxQuestions := maxQuestions (sessionState c);
       isComplete := isComplete (sessionState c');
       topics := topics (sessionState c);
       topicCoverage := topicCoverage (sessionState c);
       currentFocus := currentFocus (sessionState c) |} /\
  clockReads m' = (clockReads m + 7)%nat /\
  storageWrites m' = S (storageWrites m) /\
  (aiCalls m <= aiCalls m' <= aiCalls m + 2)%nat.
Proof.
  intros Ht Hl Hc c m' c'. subst c m' c'.
  destruct (turn_shape e m (sendBlocked_false _ Ht Hl Hc))
    as (text & evs & k & HR & Heq).
  rewrite (handle_eq _ _ _ _ _ Heq).
  apply Replied_calls in HR.
  cbn [component messages input isLoading hasStarted sessionState clockReads
       storageWrites aiCalls turnRecord rd_messages rd_sessionState].
  split; [by exists text|].
  repeat split; lia.
Qed.

Lemma turn_bookkeeping_witness :
  let e := envOf calmWorld in
  let m := readyMachine calmWorld in
  let m' := handle sendMessage e m in
  questionCount (sessionState (component m')) = 1 /\
  startTime (sessionState (component m')) = startTime (sessionState (component m)) /\
  clockReads m' = (clockReads m + 7)%nat /\
  storageWrites m' = S (storageWrites m) /\
  (aiCalls m <= aiCalls m' <= aiCalls m + 2)%nat.
Proof.
  intros e m m'.
  destruct (turn_bookkeeping e m) as (_ & _ & _ & _ & Hs & Hc & Hw & Ha).
  - vm_compute. discriminate.
  - reflexivity.
  - reflexivity.
  - subst m'. rewrite Hs. cbn [questionCount startTime].
    split; [vm_compute; reflexivity|]. split; [reflexivity|].
    split; [exact Hc|]. split; [exact Hw|exact Ha].
Defined.

Lemma shouldEnd_count s elapsed :
  maxQuestions s <= questionCount s -> shouldEndSession s elapsed = true.
Proof.
  intros H. unfold shouldEndSession.
  assert ((questionCount s >=? maxQuestions s) = true) as ->; [|done].
  rewrite Z.geb_leb. by apply Z.leb_le.
Qed.

(** Extra X3.  A turn that passes the guard when [questionCount + 1] reaches
    [maxQuestions] ends the session whatever the clock says: the reply is the
    closing message, [isComplete] is set and the generator is not called. *)
Theorem last_slot_closes_session e m :
  trim (input (component m)) <> [] ->
  isLoading (component m) = false ->
  isComplete (sessionState (component m)) = false ->
  maxQuestions (sessionState (component m))
    <= questionCount (sessionState (component m)) + 1 ->
  let m' := handle sendMessage e m in
  content <$> last (messages (component m')) = Some closingMessage /\
  length (messages (component m')) = S (S (length (messages (component m)))) /\
  isComplete (sessionState (component m')) = true /\
  aiCalls m' = aiCalls m /\
  Forall (fun ev => isGeneratorEvent ev = false) (newEvents m m').
Proof.
  intros Ht Hl Hc Hlast m'. subst m'.
  destruct (turn_shape e m (sendBlocked_false _ Ht Hl Hc))
    as (text & evs & k & HR & Heq).
  rewrite (handle_eq _ _ _ _ _ Heq).
  rewrite (newEvents_app m _ (evs ++ saveEvents e m (turnRecord e m text)))
    by reflexivity.
  cbn [component messages sessionState aiCalls turnRecord rd_messages
       rd_sessionState withIsComplete isComplete].
  assert (Hfull : forall q,
            shouldEndSession
              (withQuestionCount (questionCount (sessionState (component m)) + 1)
                 (sessionState (component m))) q = true).
  { intros q. apply shouldEnd_count. cbn [withQuestionCount maxQuestions questionCount]. lia. }
  inversion HR as [Hend | a evs' k' t Hend | a evs' k' Hend]; subst;
    try (rewrite Hfull in Hend; discriminate).
  rewrite last_app, length_app. cbn [last length fmap option_fmap option_map assistantMessageOf content].
  split; [reflexivity|]. split; [lia|]. split; [apply Hfull|].
  split; [lia|]. apply saveEvents_no_generator.
Qed.

Lemma last_slot_closes_session_witness :
  let e := envOf calmWorld in
  let m' := handle sendMessage e lastSlotMachine in
  questionCount (sessionState (component lastSlotMachine)) = 4 /\
  content <$> last (messages (component m')) = Some closingMessage /\
  isComplete (sessionState (component m')) = true /\
  aiCalls m' = aiCalls lastSlotMachine.
Proof.
  intros e m'. split; [vm_compute; reflexivity|].
  destruct (last_slot_closes_session e lastSlotMachine)
    as (Hlast & _ & Hdone & Hai & _).
  - vm_compute. discriminate.
  - vm_compute. reflexivity.
  - vm_compute. reflexivity.
  - vm_compute. discriminate.
  - split; [exact Hlast|]. split; [exact Hdone|exact Hai].
Defined.


Lemma elapsed_lt_20_iff now start :
  (elapsedMinutes now start < 20)%Q <-> now - start < 1200000.
Proof.
  split.
  - intros H. apply Znot_ge_lt. intros Hge.
    apply Qlt_not_le in H. apply H, elapsed_ge_20_iff. lia.
  - intros H. apply Qnot_le_lt. rewrite elapsed_ge_20_iff. lia.
Qed.

Lemma shouldEnd_open s now :
  questionCount s < maxQuestions s ->
  (elapsedMinutes now (startTime s) < 20)%Q ->
  isComplete s = false ->
  shouldEndSession s (elapsedMinutes now (startTime s)) = false.
Proof.
  intros Hcount Hearly Hc. unfold shouldEndSession.
  rewrite Hc, orb_false_r. apply orb_false_intro.
  - rewrite Z.geb_leb. apply Z.leb_gt. lia.
  - destruct (Qle_bool _ _) eqn:E; [|done].
    apply Qle_bool_iff in E. by apply Qle_not_lt in E.
Qed.

Lemma Analysed_calls w n hist a evs k :
  Analysed w n hist a evs k ->
  k = match hist with [] | [_] => 0%nat | _ => 1%nat end.
Proof.
  intros H. destruct H as [Hlen | object Hlen Hans | Hlen Hans];
    destruct hist as [|x [|y hist]]; simpl in *; lia.
Qed.

(** Extra X4.  Under a clock that does not run backwards, a turn that passes
    the guard with a question slot left after it and less than twenty minutes
    elapsed when [isComplete] is computed leaves the session open.  It calls
    the generator once for the text (and once before for the analysis unless
    the transcript was empty); the prompt says question [questionCount + 2] of
    [maxQuestions], and the reply is the generated text or the fallback. *)
Theorem open_turn_asks_one_question e m :
  monotoneClock (world e) ->
  trim (input (component m)) <> [] ->
  isLoading (component m) = false ->
  isComplete (sessionState (component m)) = false ->
  questionCount (sessionState (component m)) + 1
    < maxQuestions (sessionState (component m)) ->
  (elapsedMinutes (reading e m 5) (startTime (sessionState (component m))) < 20)%Q ->
  let s := sessionState (component m) in
  let m' := handle sendMessage e m in
  isComplete (sessionState (component m')) = false /\
  aiCalls m' = (aiCalls m + match messages (component m) with [] => 1 | _ => 2 end)%nat /\
  exists prompt result,
    In (EvGenerateText prompt result) (newEvents m m') /\
    cp_questionNumber prompt = questionCount s + 2 /\
    cp_maxQuestions prompt = maxQuestions s /\
    cp_questionsRemaining prompt = maxQuestions s - (questionCount s + 1) /\
    content <$> last (messages (component m')) =
      Some match result with
           | Some text => text
           | None =>
               if maxQuestions s - (questionCount s + 1) <=? 1
               then fallbackLastQuestion else fallbackQuestion
           end.
Proof.
  intros Hmono Ht Hl Hc Hcount Hearly s m'. subst s m'.
  destruct (turn_shape e m (sendBlocked_false _ Ht Hl Hc))
    as (text & evs & k & HR & Heq).
  rewrite (handle_eq _ _ _ _ _ Heq).
  rewrite (newEvents_app m _ (evs ++ saveEvents e m (turnRecord e m text)))
    by reflexivity.
  cbn [component messages sessionState aiCalls turnRecord rd_messages
       rd_sessionState withIsComplete isComplete].
  assert (Hearly2 : (elapsedMinutes (reading e m 2)
                       (startTime (sessionState (component m))) < 20)%Q).
  { apply elapsed_lt_20_iff. apply elapsed_lt_20_iff in Hearly.
    pose proof (reading_mono e m 2 5 Hmono ltac:(lia)). lia. }
  assert (Hopen : forall now,
            (elapsedMinutes now (startTime (sessionState (component m))) < 20)%Q ->
            shouldEndSession
              (withQuestionCount (questionCount (sessionState (component m)) + 1)
                 (sessionState (component m)))
              (elapsedMinutes now (startTime (sessionState (component m)))) = false).
  { intros now Hnow.
    apply (shouldEnd_open (withQuestionCount _ _)); [exact Hcount | exact Hnow | exact Hc]. }
  split; [by apply Hopen|].
  assert (Hk : forall a evs0 k0,
            Analysed (world e) (aiCalls m)
              (messages (component m) ++ [userMessageOf e m]) a evs0 k0 ->
            (k0 + 1)%nat = match messages (component m) with [] => 1%nat | _ => 2%nat end).
  { intros a evs0 k0 Ha. apply Analysed_calls in Ha. rewrite Ha.
    destruct (messages (component m)) as [|x [|y l]]; reflexivity. }
  inversion HR as [Hend | a evs' k' t Hend Ha Hans | a evs' k' Hend Ha Hans]; subst;
    cbn [withQuestionCount startTime] in Hend.
  - rewrite (Hopen _ Hearly2) in Hend. discriminate.
  - split; [by rewrite (Hk _ _ _ Ha)|].
    eexists _, (Some text).
    split; [apply in_or_app; left; apply in_or_app; right; by left|].
    cbn [contextPromptOf cp_questionNumber cp_maxQuestions cp_questionsRemaining
         withQuestionCount questionCount maxQuestions].
    rewrite last_app. repeat split; lia.
  - split; [by rewrite (Hk _ _ _ Ha)|].
    eexists _, None.
    split; [apply in_or_app; left; apply in_or_app; right; by left|].
    cbn [contextPromptOf cp_questionNumber cp_maxQuestions cp_questionsRemaining
         withQuestionCount questionCount maxQuestions].
    rewrite last_app. repeat split; lia.
Qed.

Lemma open_turn_asks_one_question_witness :
  let e := envOf (pacedWorld 1000) in
  let m := readyMachine (pacedWorld 1000) in
  let m' := handle sendMessage e m in
  isComplete (sessionState (component m')) = false /\
  aiCalls m' = (aiCalls m + 2)%nat.
Proof.
  intros e m m'.
  destruct (open_turn_asks_one_question e m) as (Hopen & Hai & _).
  - apply pacedWorld_monotone. lia.
  - vm_compute. discriminate.
  - reflexivity.
  - reflexivity.
  - vm_compute. reflexivity.
  - vm_compute. reflexivity.
  - split; [exact Hopen|]. subst m'. rewrite Hai. vm_compute. reflexivity.
Defined.



(** ** What a user's message holds *)

Lemma trimStart_head s c t : trimStart s = c :: t -> isWhiteSpace c = false.
Proof.
  induction s as [|x s IH]; cbn [trimStart]; [discriminate|].
  destruct (isWhiteSpace x) eqn:Hx; [exact IH|]. by intros [= <- _].
Qed.

Lemma trimEnd_prefix s : exists p, s = trimEnd s ++ p.
Proof.
  unfold trimEnd. destruct (trimStart_suffix (rev s)) as (p & Hp & _).
  exists (rev p). rewrite <- rev_app_distr, <- Hp. by rewrite rev_involutive.
Qed.

Lemma trim_head s c t : trim s = c :: t -> isWhiteSpace c = false.
Proof.
  unfold trim. intros H.
  destruct (trimEnd_prefix (trimStart s)) as [p Hp]. rewrite H in Hp.
  by apply (trimStart_head s c (t ++ p)).
Qed.

Lemma trim_last s c : last (trim s) = Some c -> isWhiteSpace c = false.
Proof.
  unfold trim, trimEnd.
  destruct (trimStart (rev (trimStart s))) as [|x t] eqn:Hx; [discriminate|].
  cbn [rev]. rewrite last_snoc. intros [= <-]. by apply trimStart_head in Hx.
Qed.

(** Extra X5.  The user's message appended by a turn holds the trimmed input:
    it is not empty and neither begins nor ends with white space. *)
Theorem user_content_is_trimmed e m :
  sendBlocked (component m) = false ->
  exists u a,
    messages (component (handle sendMessage e m)) = messages (component m) ++ [u; a] /\
    role u = user /\ role a = assistant /\
    content u = trim (input (component m)) /\
    content u <> [] /\
    (forall c, head (content u) = Some c -> isWhiteSpace c = false) /\
    (forall c, last (content u) = Some c -> isWhiteSpace c = false).
Proof.
  intros Hb. destruct (turn_shape e m Hb) as (text & evs & k & _ & Heq).
  rewrite (handle_eq _ _ _ _ _ Heq).
  exists (userMessageOf e m), (assistantMessageOf e m text).
  cbn [component messages turnRecord rd_messages userMessageOf assistantMessageOf
       role content].
  repeat split.
  - unfold sendBlocked in Hb. apply orb_false_elim in Hb as [Hb _].
    apply orb_false_elim in Hb as [Hb _].
    destruct (trim (input (component m))); [discriminate|done].
  - intros c Hc. destruct (trim (input (component m))) as [|x t] eqn:Ht;
      [discriminate|]. injection Hc as <-. by apply trim_head in Ht.
  - apply trim_last.
Qed.

Lemma user_content_is_trimmed_witness :
  let e := envOf calmWorld in
  let m := typed (lit "  Shipped onboarding flow  ") (run e [StartSession] bootMachine) in
  exists u a,
    messages (component (handle sendMessage e m)) = messages (component m) ++ [u; a] /\
    content u = shipped.
Proof.
  intros e m.
  destruct (user_content_is_trimmed e m) as (u & a & Hm & _ & _ & Hc & _).
  - vm_compute. reflexivity.
  - exists u, a. split; [exact Hm|]. rewrite Hc. vm_compute. reflexivity.
Defined.

(** ** Nothing escapes the handlers *)

Lemma Replied_no_toast w n hist s now text evs k :
  Replied w n hist s now text evs k ->
  Forall (fun ev => isToastEvent ev = false) evs.
Proof.
  intros H.
  assert (HA : forall a evs0 k0, Analysed w n hist a evs0 k0 ->
            Forall (fun ev => isToastEvent ev = false) evs0).
  { intros a evs0 k0 Ha. destruct Ha; repeat constructor. }
  destruct H as [Hend | a evs k t Hend Ha Hans | a evs k Hend Ha Hans].
  - constructor.
  - apply Forall_app. split; [by eapply HA|repeat constructor].
  - apply Forall_app. split; [by eapply HA|repeat constructor].
Qed.

(** Extra X6.  No exception leaves [loadTodaysReflection], [startReflection] or
    [sendMessage], whatever the generator and the store answer; and
    [sendMessage] never shows its error toast: its outer [catch] is not reached. *)
Theorem handlers_never_throw e m :
  outcomeOf loadTodaysReflection e m = Returned tt /\
  outcomeOf startReflection e m = Returned tt /\
  outcomeOf sendMessage e m = Returned tt /\
  Forall (fun ev => isToastEvent ev = false) (newEvents m (handle sendMessage e m)).
Proof.
  split; [|split; [|split]].
  - unfold outcomeOf, loadTodaysReflection, mbind, M_bind, ask.
    destruct (negb (truthy (user_id e))); [reflexivity|].
    unfold tryCatch, mbind, M_bind, localStorage_getItem.
    by destruct (localStorage m !! reflectionKey e).
  - unfold outcomeOf. by rewrite start_shape.
  - apply sendMessage_returns.
  - destruct (sendMessage_cases e m)
      as [[_ ->] | [_ (text & evs & k & HR & -> & _)]].
    + rewrite newEvents_same. constructor.
    + apply Forall_app. split; [by eapply Replied_no_toast|].
      unfold saveEvents. destruct (setItemOk _ _); repeat constructor.
Qed.

(** ** The analysis window *)

Lemma sliceLast_app {A} (n : nat) (older recent : list A) :
  length recent = n -> sliceLast n (older ++ recent) = recent.
Proof.
  intros <-. unfold sliceLast. rewrite length_app.
  replace (length older + length recent - length recent)%nat with (length older) by lia.
  apply drop_app_length.
Qed.

Lemma renderConversation_ext msgs msgs' :
  map (fun x => (role x, content x)) msgs = map (fun x => (role x, content x)) msgs' ->
  renderConversation msgs = renderConversation msgs'.
Proof.
  intros H. unfold renderConversation. f_equal.
  apply (f_equal (map (fun p : Role * jsstring =>
                         renderRole p.1 ++ lit ": " ++ p.2))) in H.
  by rewrite !map_map in H.
Qed.

(** Extra X7.  The coverage analysis sees the last four messages only, and
    of those the role and the content only: two transcripts that agree there
    get the same request, the same answer and the same effects. *)
Theorem analysis_reads_last_four_only older older' recent recent' e m :
  length recent = 4%nat ->
  map (fun x => (role x, content x)) recent
    = map (fun x => (role x, content x)) recent' ->
  analyzeConversationContext (older ++ recent) e m
  = analyzeConversationContext (older' ++ recent') e m.
Proof.
  intros Hlen Hsame.
  assert (Hlen' : length recent' = 4%nat).
  { apply (f_equal (@length _)) in Hsame. rewrite !length_map in Hsame. lia. }
  unfold analyzeConversationContext.
  rewrite (sliceLast_app 4 older recent Hlen), (sliceLast_app 4 older' recent' Hlen').
  rewrite (renderConversation_ext _ _ Hsame).
  rewrite !length_app, Hlen, Hlen'.
  destruct (Nat.ltb_spec (length older + 4) 2); [lia|].
  destruct (Nat.ltb_spec (length older' + 4) 2); [lia|]. reflexivity.
Qed.

Lemma analysis_reads_last_four_only_witness :
  let recent := [sampleMessage user "a" 1; sampleMessage assistant "b" 2;
                 sampleMessage user "c" 3; sampleMessage assistant "d" 4] in
  let recent' := [sampleMessage user "a" 11; sampleMessage assistant "b" 12;
                  sampleMessage user "c" 13; sampleMessage assistant "d" 14] in
  analyzeConversationContext
    ([sampleMessage assistant "welcome" 0] ++ recent) (envOf calmWorld) bootMachine
  = analyzeConversationContext ([] ++ recent') (envOf calmWorld) bootMachine.
Proof.
  intros recent recent'.
  apply (analysis_reads_last_four_only _ _ recent recent'); reflexivity.
Defined.


(** ** Reloading the page *)

Lemma mount_with_record e m r :
  user_id e <> [] ->
  localStorage m !! reflectionKey e = Some r ->
  exec e Mount m =
    withComponent (fun _ =>
      {| messages := rd_messages r; input := []; isLoading := false;
         hasStarted := (0 <? length (rd_messages r))%nat;
         sessionState := rd_sessionState r |}) m.
Proof.
  intros Hu Hr. cbn [exec].
  unfold handle, loadTodaysReflection, mbind, M_bind, ask.
  destruct (user_id e) as [|u us] eqn:Hid; [done|]. cbn [truthy negb].
  unfold tryCatch, mbind, M_bind, localStorage_getItem.
  cbn [mounted withComponent localStorage]. rewrite Hr.
  destruct m as [c ls cr ai sw tr]. reflexivity.
Qed.

Lemma mount_without_record e m :
  user_id e = [] \/ localStorage m !! reflectionKey e = None ->
  exec e Mount m = mounted m.
Proof.
  intros H. cbn [exec].
  unfold handle, loadTodaysReflection, mbind, M_bind, ask.
  destruct (negb (truthy (user_id e))) eqn:Hu; [reflexivity|].
  destruct H as [H | H]; [rewrite H in Hu; discriminate|].
  unfold tryCatch, mbind, M_bind, localStorage_getItem.
  cbn [mounted withComponent localStorage]. rewrite H. reflexivity.
Qed.

(** What a mount shows is read off the store at the instance's own key. *)
Lemma mount_shows e m :
  component (exec e Mount m) =
    match (if truthy (user_id e) then localStorage m !! reflectionKey e else None) with
    | Some r =>
        {| messages := rd_messages r; input := []; isLoading := false;
           hasStarted := (0 <? length (rd_messages r))%nat;
           sessionState := rd_sessionState r |}
    | None => initialComponent
    end.
Proof.
  destruct (user_id e) as [|u us] eqn:Hid.
  - rewrite mount_without_record by (by left). reflexivity.
  - cbn [truthy].
    destruct (localStorage m !! reflectionKey e) as [r|] eqn:Hr.
    + rewrite (mount_with_record e m r); [reflexivity|by rewrite Hid|exact Hr].
    + rewrite mount_without_record by (by right). reflexivity.
Qed.

Lemma mount_reads_own_key e m m' :
  localStorage m' !! reflectionKey e = localStorage m !! reflectionKey e ->
  component (exec e Mount m') = component (exec e Mount m).
Proof. intros H. rewrite !mount_shows, H. reflexivity. Qed.

Lemma reflectionKey_same_user e e' :
  user_id e' = user_id e -> reflectionKey e' = reflectionKey e ->
  todayDate e' = todayDate e.
Proof.
  unfold reflectionKey. intros -> H.
  by repeat apply app_inv_head in H.
Qed.

Lemma reflectionKey_same_day e e' :
  user_id e' = user_id e -> todayDate e' = todayDate e ->
  reflectionKey e' = reflectionKey e.
Proof. unfold reflectionKey. by intros -> ->. Qed.

Lemma storeAfterSave_other e m data k :
  k <> reflectionKey e -> storeAfterSave e m data !! k = localStorage m !! k.
Proof.
  intros Hk. unfold storeAfterSave. destruct (setItemOk _ _); [|done].
  by apply lookup_insert_ne.
Qed.

(** Extra X8.  With a user id and a store that accepts the write, take the
    machine left by [startReflection], or by a turn that passed the guard, and
    mount the page again for the same user.  If the new instance reads the
    same date, it shows the same messages and the same session state, with
    [hasStarted] true, an empty input and [isLoading] false.  If it reads
    another date, it shows what it would have shown without that save: the
    initial component when nothing is stored for that other date. *)
Theorem reload_restores_saved_session e e' m m' :
  user_id e <> [] ->
  user_id e' = user_id e ->
  setItemOk (world e) (storageWrites m) = true ->
  m' = handle startReflection e m \/
  (sendBlocked (component m) = false /\ m' = handle sendMessage e m) ->
  let back := component (exec e' Mount m') in
  (todayDate e' = todayDate e ->
   messages back = messages (component m') /\
   sessionState back = sessionState (component m') /\
   hasStarted back = true /\ input back = [] /\ isLoading back = false) /\
  (todayDate e' <> todayDate e ->
   back = component (exec e' Mount m) /\
   (localStorage m !! reflectionKey e' = None -> back = initialComponent)).
Proof.
  intros Hu Hsame Hok Hm' back.
  assert (Hu' : user_id e' <> []) by (by rewrite Hsame).
  assert (Hsaved : exists data,
    localStorage m' = storeAfterSave e m data /\
    messages (component m') = rd_messages data /\
    sessionState (component m') = rd_sessionState data /\
    rd_messages data <> []).
  { destruct Hm' as [-> | [Hb ->]].
    - rewrite (handle_eq _ _ _ _ _ (start_shape e m)).
      exists (startRecord e m). by repeat split.
    - destruct (turn_shape e m Hb) as (text & evs & k & _ & Heq).
      rewrite (handle_eq _ _ _ _ _ Heq).
      exists (turnRecord e m text). repeat split.
      cbn [turnRecord rd_messages]. intros H. by apply app_eq_nil in H as [_ H]. }
  destruct Hsaved as (data & Hstore & Hmsgs & Hstate & Hne).
  split.
  - intros Hday. subst back.
    rewrite (mount_with_record e' m' data);
      [|done|by rewrite Hstore, (reflectionKey_same_day e e') by done;
             apply storeAfterSave_accepted].
    cbn [withComponent component messages sessionState hasStarted input isLoading].
    split; [done|]. split; [done|]. split; [|done].
    apply Nat.ltb_lt. destruct (rd_messages data); [done|cbn [length]; lia].
  - intros Hday.
    assert (Hkey : reflectionKey e' <> reflectionKey e).
    { intros H. by apply Hday, reflectionKey_same_user. }
    assert (Hback : back = component (exec e' Mount m)).
    { apply mount_reads_own_key. rewrite Hstore. by apply storeAfterSave_other. }
    split; [exact Hback|]. intros Hnone. rewrite Hback.
    rewrite mount_without_record by (by right). reflexivity.
Qed.

Lemma reload_restores_saved_session_witness :
  let e := envOf calmWorld in
  let m := readyMachine calmWorld in
  let m' := handle sendMessage e m in
  (messages (component (exec e Mount m')) = messages (component m') /\
   sessionState (component (exec e Mount m')) = sessionState (component m')) /\
  component (exec (dayAfter e) Mount m') = initialComponent.
Proof.
  intros e m m'.
  assert (Hu : user_id e <> []) by (vm_compute; discriminate).
  assert (Hok : setItemOk (world e) (storageWrites m) = true) by reflexivity.
  assert (Hm' : m' = handle startReflection e m \/
                (sendBlocked (component m) = false /\ m' = handle sendMessage e m)).
  { right. split; [vm_compute; reflexivity|reflexivity]. }
  split.
  - destruct (reload_restores_saved_session e e m m' Hu eq_refl Hok Hm')
      as [Hsame _].
    destruct (Hsame eq_refl) as (Hmsgs & Hstate & _).
    split; [exact Hmsgs|exact Hstate].
  - destruct (reload_restores_saved_session e (dayAfter e) m m' Hu eq_refl Hok Hm')
      as [_ Hother].
    destruct Hother as [_ Hfresh]; [vm_compute; discriminate|].
    apply Hfresh. vm_compute. reflexivity.
Defined.

(** Extra X9.  When the store refuses the write of a turn, the store is left
    as it was, so a reload shows what it would have shown before the turn; the
    turn itself still appended its two messages in memory and logged the
    storage error last. *)
Theorem refused_write_is_lost_on_reload e m :
  setItemOk (world e) (storageWrites m) = false ->
  let m' := handle sendMessage e m in
  localStorage m' = localStorage m /\
  component (exec e Mount m') = component (exec e Mount m) /\
  (sendBlocked (component m) = false ->
   length (messages (component m')) = S (S (length (messages (component m)))) /\
   last (newEvents m m') = Some (EvConsoleError (lit "Error saving reflection:"))).
Proof.
  intros Hno m'. subst m'.
  assert (Hstore : localStorage (handle sendMessage e m) = localStorage m).
  { destruct (sendMessage_cases e m)
      as [[_ ->] | [_ (text & evs & k & _ & _ & _ & ->)]]; [done|].
    by apply storeAfterSave_refused. }
  split; [exact Hstore|]. split.
  - destruct (decide (user_id e = [])) as [Hu|Hu].
    + by rewrite !mount_without_record by (by left).
    + destruct (localStorage m !! reflectionKey e) as [r|] eqn:Hr.
      * rewrite (mount_with_record e m r), (mount_with_record e _ r);
          [done|done|by rewrite Hstore|done|done].
      * rewrite !mount_without_record; [done|by right|right; by rewrite Hstore].
  - intros Hb. destruct (turn_shape e m Hb) as (text & evs & k & _ & Heq).
    rewrite (handle_eq _ _ _ _ _ Heq).
    rewrite (newEvents_app m _ (evs ++ saveEvents e m (turnRecord e m text)))
      by reflexivity.
    cbn [component messages turnRecord rd_messages]. split.
    + rewrite length_app. cbn [length]. lia.
    + unfold saveEvents. rewrite Hno, last_app. reflexivity.
Qed.

Lemma refused_write_is_lost_on_reload_witness :
  let e := envOf fullStoreWorld in
  let m := readyMachine fullStoreWorld in
  let m' := handle sendMessage e m in
  length (messages (component m')) = 3%nat /\
  length (messages (component (exec e Mount m'))) = 1%nat /\
  localStorage m' = localStorage m.
Proof.
  intros e m m'.
  destruct (refused_write_is_lost_on_reload e m) as (Hstore & Hback & _).
  - vm_compute. reflexivity.
  - split; [vm_compute; reflexivity|]. split; [|exact Hstore].
    subst m'. rewrite Hback. vm_compute. reflexivity.
Defined.

(** Extra X10.  Mounting only reads the store: whatever the date the new
    instance takes, the store, the trace and the counts of generator requests
    and of storage writes are as before.  And an instance keeps nothing of the
    one mounted before it: what it shows is what it would show had the earlier
    one never been mounted. *)
Theorem mount_only_reads e e' m :
  localStorage (exec e Mount m) = localStorage m /\
  trace (exec e Mount m) = trace m /\
  aiCalls (exec e Mount m) = aiCalls m /\
  storageWrites (exec e Mount m) = storageWrites m /\
  component (exec e' Mount (exec e Mount m)) = component (exec e' Mount m).
Proof.
  assert (H : localStorage (exec e Mount m) = localStorage m /\
              trace (exec e Mount m) = trace m /\
              aiCalls (exec e Mount m) = aiCalls m /\
              storageWrites (exec e Mount m) = storageWrites m).
  { cbn [exec].
    destruct (load_cases e (mounted m)) as [-> | (data & _ & ->)]; by destruct m. }
  destruct H as (Hstore & Htrace & Hai & Hsw).
  repeat (split; [assumption|]).
  apply mount_reads_own_key. by rewrite Hstore.
Qed.


(** ** What the handlers write *)

(** An operation leaves the store as it is or puts one record, written by
    [saveReflection] for this user and date and holding a message, under the
    key of the user and the date. *)
Lemma exec_store e op m :
  localStorage (exec e op m) = localStorage m \/
  exists data,
    localStorage (exec e op m) = <[reflectionKey e := data]> (localStorage m) /\
    rd_date data = todayDate e /\ rd_userId data = user_id e /\
    rd_messages data <> [].
Proof.
  destruct op as [| |text]; cbn [exec].
  - left. destruct (load_cases e (mounted m)) as [-> | (data & _ & ->)];
      by destruct m.
  - rewrite (handle_eq _ _ _ _ _ (start_shape e m)). cbn [localStorage].
    unfold storeAfterSave. destruct (setItemOk _ _); [|by left].
    right. exists (startRecord e m). by repeat split.
  - destruct (sendMessage_cases e (typed text m))
      as [[_ ->] | [_ (reply & evs & k & _ & _ & _ & ->)]]; [by left|].
    unfold storeAfterSave. destruct (setItemOk _ _); [|by left].
    right. exists (turnRecord e (typed text m) reply).
    split; [reflexivity|]. split; [reflexivity|]. split; [reflexivity|].
    cbn [turnRecord rd_messages]. intros H. by apply app_eq_nil in H as [_ H].
Qed.

(** Within one instance only the instance's own key is written, and no key
    is removed. *)
Lemma run_store e ops m k :
  (k <> reflectionKey e ->
   localStorage (run e ops m) !! k = localStorage m !! k) /\
  (is_Some (localStorage m !! k) -> is_Some (localStorage (run e ops m) !! k)).
Proof.
  revert m. induction ops as [|op ops IH]; intros m; [by split|].
  change (run e (op :: ops) m) with (run e ops (exec e op m)).
  destruct (IH (exec e op m)) as [IHother IHkept].
  destruct (exec_store e op m) as [Hsame | (data & Hput & _)].
  - rewrite Hsame in IHother, IHkept. by split.
  - split.
    + intros Hk. rewrite (IHother Hk), Hput. by apply lookup_insert_ne.
    + intros Hsome. apply IHkept. rewrite Hput.
      destruct (decide (reflectionKey e = k)) as [<-|Hne].
      * rewrite lookup_insert_eq. by eexists.
      * by rewrite lookup_insert_ne.
Qed.

(** Extra X11.  Over any sequence of visits, each on its own day, a key that
    is the key of none of the visiting instances keeps its record untouched,
    and no key is ever removed. *)
Theorem only_todays_key_is_written vs m k :
  ((forall v, v ∈ vs -> k <> reflectionKey (visit_env v)) ->
   localStorage (visits vs m) !! k = localStorage m !! k) /\
  (is_Some (localStorage m !! k) -> is_Some (localStorage (visits vs m) !! k)).
Proof.
  revert m. induction vs as [|v vs IH]; intros m; [by split|].
  change (visits (v :: vs) m) with (visits vs (visit v m)).
  destruct (IH (visit v m)) as [IHother IHkept].
  destruct (run_store (visit_env v) (Mount :: visit_ops v) m k) as [Hother Hkept].
  fold (visit v m) in Hother, Hkept.
  split.
  - intros Hk. rewrite IHother.
    + apply Hother, Hk. by left.
    + intros v' Hv'. apply Hk. by right.
  - intros Hsome. by apply IHkept, Hkept.
Qed.

Lemma only_todays_key_is_written_witness :
  let e := envOf calmWorld in
  let m := run e [StartSession] bootMachine in
  let later := [ {| visit_env := dayAfter e;
                    visit_ops := [StartSession; SubmitUserTurn shipped] |} ] in
  localStorage (visits later m) !! reflectionKey e = localStorage m !! reflectionKey e /\
  is_Some (localStorage (visits later m) !! reflectionKey (dayAfter e)).
Proof.
  intros e m later.
  destruct (only_todays_key_is_written later m (reflectionKey e)) as [Hother _].
  split.
  - apply Hother. intros v Hv. subst later.
    apply elem_of_cons in Hv as [-> | Hv]; [vm_compute; discriminate|].
    destruct (not_elem_of_nil _ Hv).
  - vm_compute. eexists. reflexivity.
Defined.

Lemma run_writtenBy vs e ops m :
  (exists v, v ∈ vs /\ visit_env v = e) ->
  (forall k r, localStorage m !! k = Some r -> rd_messages r <> [] /\ writtenBy vs k r) ->
  forall k r, localStorage (run e ops m) !! k = Some r ->
    rd_messages r <> [] /\ writtenBy vs k r.
Proof.
  intros (v & Hv & <-). revert m.
  induction ops as [|op ops IH]; intros m Hm; [exact Hm|].
  change (run (visit_env v) (op :: ops) m)
    with (run (visit_env v) ops (exec (visit_env v) op m)).
  apply IH. intros k r Hk.
  destruct (exec_store (visit_env v) op m) as [Hsame | (data & Hput & Hd & Hu & Hne)].
  - rewrite Hsame in Hk. eauto.
  - rewrite Hput in Hk.
    destruct (decide (reflectionKey (visit_env v) = k)) as [<-|Hneq].
    + rewrite lookup_insert_eq in Hk. injection Hk as <-.
      split; [exact Hne|]. by exists v.
    + rewrite lookup_insert_ne in Hk by done. eauto.
Qed.

Lemma visits_writtenBy all vs m :
  (forall v, v ∈ vs -> v ∈ all) ->
  (forall k r, localStorage m !! k = Some r -> rd_messages r <> [] /\ writtenBy all k r) ->
  forall k r, localStorage (visits vs m) !! k = Some r ->
    rd_messages r <> [] /\ writtenBy all k r.
Proof.
  revert m. induction vs as [|v vs IH]; intros m Hsub Hm; [exact Hm|].
  change (visits (v :: vs) m) with (visits vs (visit v m)).
  apply IH; [intros v' Hv'; apply Hsub; by right|].
  apply run_writtenBy; [|exact Hm].
  exists v. split; [apply Hsub; by left|reflexivity].
Qed.

(** Extra X12.  Over any sequence of visits from an empty store, every stored
    record holds at least one message and was written by one of the visiting
    instances: it sits under that instance's key and carries that instance's
    user id and date. *)
Theorem stored_records_match_their_key vs k r :
  localStorage (visits vs bootMachine) !! k = Some r ->
  rd_messages r <> [] /\
  exists v, v ∈ vs /\ k = reflectionKey (visit_env v) /\
    rd_userId r = user_id (visit_env v) /\ rd_date r = todayDate (visit_env v).
Proof.
  apply (visits_writtenBy vs vs bootMachine); [done|].
  intros k' r' Hk'. unfold bootMachine in Hk'. cbn [localStorage] in Hk'.
  by rewrite lookup_empty in Hk'.
Qed.

Lemma stored_records_match_their_key_witness :
  let e := envOf calmWorld in
  let store := localStorage (visits twoDays bootMachine) in
  exists r1 r2,
    store !! reflectionKey e = Some r1 /\ rd_date r1 = lit "2024-05-06" /\
    store !! reflectionKey (dayAfter e) = Some r2 /\ rd_date r2 = lit "2024-05-07" /\
    rd_messages r1 <> [] /\ rd_messages r2 <> [].
Proof.
  intros e store.
  destruct (store !! reflectionKey e) as [r1|] eqn:H1;
    [|vm_compute in H1; discriminate].
  destruct (store !! reflectionKey (dayAfter e)) as [r2|] eqn:H2;
    [|vm_compute in H2; discriminate].
  exists r1, r2.
  destruct (stored_records_match_their_key twoDays _ r1 H1)
    as (Hne1 & v1 & Hv1 & Hk1 & _ & Hd1).
  destruct (stored_records_match_their_key twoDays _ r2 H2)
    as (Hne2 & v2 & Hv2 & Hk2 & _ & Hd2).
  assert (Hdate1 : rd_date r1 = lit "2024-05-06").
  { rewrite Hd1. unfold twoDays in Hv1.
    apply elem_of_cons in Hv1 as [-> | Hv1]; [reflexivity|].
    apply elem_of_cons in Hv1 as [-> | Hv1]; [vm_compute in Hk1; discriminate|].
    destruct (not_elem_of_nil _ Hv1). }
  assert (Hdate2 : rd_date r2 = lit "2024-05-07").
  { rewrite Hd2. unfold twoDays in Hv2.
    apply elem_of_cons in Hv2 as [-> | Hv2]; [vm_compute in Hk2; discriminate|].
    apply elem_of_cons in Hv2 as [-> | Hv2]; [reflexivity|].
    destruct (not_elem_of_nil _ Hv2). }
  split; [reflexivity|]. split; [exact Hdate1|]. split; [reflexivity|].
  split; [exact Hdate2|]. split; [exact Hne1|exact Hne2].
Defined.

(** Extra X13.  Two environments whose dates have the same length (ten
    characters for an ISO date) and whose keys are equal have the same user id
    and the same date. *)
Theorem reflectionKey_separates_users_and_dates e1 e2 :
  length (todayDate e1) = length (todayDate e2) ->
  reflectionKey e1 = reflectionKey e2 ->
  user_id e1 = user_id e2 /\ todayDate e1 = todayDate e2.
Proof.
  unfold reflectionKey. intros Hlen Heq.
  apply app_inv_head in Heq.
  apply app_inj_2 in Heq as [Hu Hd].
  - split; [exact Hu|]. by apply app_inv_head in Hd.
  - rewrite !length_app. by rewrite Hlen.
Qed.

Lemma reflectionKey_separates_users_and_dates_witness :
  user_id (envOf calmWorld) = user_id (envOf noTextWorld) /\
  todayDate (envOf calmWorld) = todayDate (envOf noTextWorld).
Proof.
  apply (reflectionKey_separates_users_and_dates (envOf calmWorld) (envOf noTextWorld));
    reflexivity.
Defined.


(** ** The page driven through its controls *)

Lemma handleKeyPress_spec ev e m :
  handleKeyPress ev (component m) e m =
    if bool_decide (key ev = lit "Enter") && negb (shiftKey ev)
    then (Returned true, handle sendMessage e m)
    else (Returned false, m).
Proof.
  unfold handleKeyPress.
  destruct (bool_decide (key ev = lit "Enter") && negb (shiftKey ev)); [|reflexivity].
  unfold mbind, M_bind, handle.
  pose proof (sendMessage_returns e m) as Hret. unfold outcomeOf in Hret.
  destruct (sendMessage (component m) e m) as [o m']. cbn [fst] in Hret. subst o.
  reflexivity.
Qed.

(** Extra X14.  In the text area, Enter without Shift does exactly what a
    click on the send button does, in every state of the page; any other key
    press changes nothing. *)
Theorem enter_key_is_the_send_button e m ev :
  act e (PressKey ev) m =
    if bool_decide (key ev = lit "Enter") && negb (shiftKey ev)
    then act e ClickSend m else m.
Proof.
  cbn [act]. rewrite handleKeyPress_spec. unfold usable, rendered, disabled.
  destruct (bool_decide (key ev = lit "Enter") && negb (shiftKey ev));
    [|cbn [snd]; by destruct (_ && _)].
  cbn [snd].
  destruct (hasStarted (component m)); [|reflexivity].
  destruct (isComplete (sessionState (component m))) eqn:Hc; [reflexivity|].
  destruct (isLoading (component m)) eqn:Hl.
  - cbn. by rewrite orb_true_r.
  - cbn. destruct (truthy (trim (input (component m)))) eqn:Ht; cbn; [reflexivity|].
    apply (handle_eq _ _ _ (Returned tt)). apply sendMessage_blocked.
    unfold sendBlocked. by rewrite Ht.
Qed.

Lemma turnRoles_snoc n : turnRoles n ++ [user; assistant] = turnRoles (S n).
Proof. induction n as [|n IH]; [reflexivity|]. cbn [turnRoles app]. by rewrite IH. Qed.

Lemma turnRoles_length n : length (turnRoles n) = (2 * n)%nat.
Proof. induction n as [|n IH]; cbn [turnRoles length]; lia. Qed.

Lemma transcriptOf_fresh e m :
  transcriptOf [welcomeMessageOf e m] (freshSessionState (reading e m 0)).
Proof. unfold transcriptOf. cbn. split; [lia|]. by split. Qed.

Lemma transcriptOf_turn msgs s u a b :
  role u = user -> role a = assistant ->
  transcriptOf msgs s ->
  transcriptOf (msgs ++ [u; a])
    (withIsComplete b (withQuestionCount (questionCount s + 1) s)).
Proof.
  intros Hu Ha (Hpos & Hroles & Hhead). unfold transcriptOf.
  cbn [withIsComplete withQuestionCount questionCount].
  split; [lia|]. split.
  - rewrite map_app, Hroles. cbn [map]. rewrite Hu, Ha.
    rewrite Z2Nat.inj_add by lia. change (Z.to_nat 1) with 1%nat.
    rewrite Nat.add_1_r, <- turnRoles_snoc. reflexivity.
  - destruct msgs as [|x msgs]; [discriminate Hhead|exact Hhead].
Qed.

Lemma transcriptOf_length msgs s :
  transcriptOf msgs s -> Z.of_nat (length msgs) = 1 + 2 * questionCount s.
Proof.
  intros (Hpos & Hroles & _). apply (f_equal (@length Role)) in Hroles.
  rewrite length_map in Hroles. cbn [length] in Hroles.
  rewrite turnRoles_length in Hroles. lia.
Qed.

Lemma boot_onPage : onPage bootMachine.
Proof.
  unfold onPage, bootMachine.
  cbn [component localStorage initialComponent isLoading hasStarted].
  split; [done|]. split; [done|]. split; [discriminate|].
  intros k r Hk. by rewrite lookup_empty in Hk.
Qed.

Lemma start_onPage e m : onPage m -> onPage (handle startReflection e m).
Proof.
  intros (_ & _ & _ & Hstore).
  rewrite (handle_eq _ _ _ _ _ (start_shape e m)). unfold onPage.
  cbn [component isLoading hasStarted messages sessionState localStorage].
  split; [done|]. split; [done|]. split.
  - intros _. split; [apply transcriptOf_fresh | apply paced_fresh].
  - intros k r Hk. apply storeAfterSave_lookup in Hk as [-> | Hk]; [|eauto].
    split; [apply transcriptOf_fresh | apply paced_fresh].
Qed.

Lemma send_onPage e m :
  hasStarted (component m) = true -> onPage m -> onPage (handle sendMessage e m).
Proof.
  intros Hs (Hload & Hidle & Hshown & Hstore).
  destruct (sendMessage_cases e m)
    as [[_ ->] | [Hb (text & evs & k & _ & _ & Hcomp & Hls)]]; [done|].
  destruct (Hshown Hs) as [Htr Hpaced].
  assert (Hopen : isComplete (sessionState (component m)) = false).
  { unfold sendBlocked in Hb. by apply orb_false_elim in Hb as [_ Hb]. }
  assert (Hnew : transcriptOf (rd_messages (turnRecord e m text))
                   (rd_sessionState (turnRecord e m text)) /\
                 paced (rd_sessionState (turnRecord e m text))).
  { unfold turnRecord. cbn [rd_messages rd_sessionState]. split.
    - by apply transcriptOf_turn.
    - by apply paced_turn. }
  unfold onPage. rewrite Hcomp, Hls.
  cbn [isLoading hasStarted messages sessionState].
  split; [done|]. split; [congruence|]. split; [done|].
  intros key r Hk. apply storeAfterSave_lookup in Hk as [-> | Hk]; [done|eauto].
Qed.

Lemma mount_onPage e m : onPage m -> onPage (exec e Mount m).
Proof.
  intros (_ & _ & _ & Hstore). cbn [exec].
  destruct (load_cases e (mounted m)) as [-> | (data & Hget & ->)].
  - unfold onPage, mounted.
    cbn [withComponent component localStorage initialComponent isLoading hasStarted].
    split; [done|]. split; [done|]. split; [discriminate|exact Hstore].
  - cbn [mounted withComponent localStorage] in Hget.
    destruct (Hstore _ _ Hget) as [Htr Hpaced].
    unfold onPage. cbn [mounted withComponent component localStorage isLoading
                        hasStarted messages sessionState initialComponent].
    split; [done|].
    assert (Hlen : (0 <? length (rd_messages data))%nat = true).
    { apply Nat.ltb_lt. pose proof (transcriptOf_length _ _ Htr) as Hl.
      destruct Hpaced as (_ & Hq & _). lia. }
    rewrite Hlen. split; [done|]. split; [done|exact Hstore].
Qed.

Lemma act_onPage e a m : onPage m -> onPage (act e a m).
Proof.
  intros H. destruct a as [| |text| |ev]; cbn [act].
  - by apply mount_onPage.
  - destruct (usable _ _); [by apply start_onPage|done].
  - destruct (usable _ _) eqn:Hu; [|done].
    unfold usable, rendered in Hu.
    destruct (hasStarted (component m)) eqn:Hs; [|discriminate].
    destruct H as (Hload & Hidle & Hshown & Hstore).
    unfold onPage, typed. cbn [withComponent component isLoading hasStarted
                                messages sessionState localStorage].
    rewrite Hs. split; [done|]. split; [discriminate|]. split; [|exact Hstore].
    intros _. by apply Hshown.
  - destruct (usable _ _) eqn:Hu; [|done].
    unfold usable, rendered in Hu.
    destruct (hasStarted (component m)) eqn:Hs; [|discriminate].
    by apply send_onPage.
  - destruct (usable _ _) eqn:Hu; [|done].
    unfold usable, rendered in Hu.
    destruct (hasStarted (component m)) eqn:Hs; [|discriminate].
    rewrite handleKeyPress_spec.
    destruct (bool_decide (key ev = lit "Enter") && negb (shiftKey ev)); [|done].
    by apply send_onPage.
Qed.

Lemma interact_onPage e actions m : onPage m -> onPage (interact e actions m).
Proof.
  revert m. induction actions as [|a actions IH]; intros m H; [exact H|].
  change (interact e (a :: actions) m) with (interact e actions (act e a m)).
  by apply IH, act_onPage.
Qed.

(** Extra X15.  On a page driven through its controls from the booted
    machine, once the session on screen is complete no action but a reload
    changes anything: the start button is not rendered, nor are the text area
    and the send button. *)
Theorem complete_session_is_terminal_on_page e actions a :
  let m := interact e actions bootMachine in
  isComplete (sessionState (component m)) = true ->
  a <> Reload ->
  act e a m = m.
Proof.
  intros m Hc Ha.
  destruct (interact_onPage e actions bootMachine boot_onPage)
    as (_ & Hidle & _ & _). fold m in Hidle.
  assert (Hs : hasStarted (component m) = true).
  { destruct (hasStarted (component m)); [done|].
    rewrite (Hidle eq_refl) in Hc. discriminate. }
  destruct a as [| |text| |ev]; [done| | | |]; cbn [act];
    unfold usable, rendered; rewrite Hs, ?Hc; reflexivity.
Qed.

Lemma complete_session_is_terminal_on_page_witness :
  let e := envOf calmWorld in
  let m := interact e (pageSession 5) bootMachine in
  isComplete (sessionState (component m)) = true /\
  act e ClickStart m = m /\
  act e (PressKey enterKey) m = m.
Proof.
  intros e m.
  assert (Hc : isComplete (sessionState (component m)) = true)
    by (vm_compute; reflexivity).
  split; [exact Hc|]. split.
  - apply (complete_session_is_terminal_on_page e (pageSession 5) ClickStart Hc).
    discriminate.
  - apply (complete_session_is_terminal_on_page e (pageSession 5) (PressKey enterKey) Hc).
    discriminate.
Defined.

(** Extra X16.  On a page driven through its controls, a started session
    shows the welcome message followed by [questionCount] pairs of a user's
    message and a reply: [1 + 2 * questionCount] messages, eleven at most. *)
Theorem page_transcript_alternates e actions :
  let c := component (interact e actions bootMachine) in
  hasStarted c = true ->
  map role (messages c)
    = assistant :: turnRoles (Z.to_nat (questionCount (sessionState c))) /\
  content <$> head (messages c) = Some welcomeContent /\
  Z.of_nat (length (messages c)) = 1 + 2 * questionCount (sessionState c) /\
  (length (messages c) <= 11)%nat.
Proof.
  intros c Hs.
  destruct (interact_onPage e actions bootMachine boot_onPage)
    as (_ & _ & Hshown & _).
  destruct (Hshown Hs) as [Htr (_ & Hcount & _)]. fold c in Htr, Hcount.
  pose proof (transcriptOf_length _ _ Htr) as Hlen.
  destruct Htr as (_ & Hroles & Hhead).
  split; [exact Hroles|]. split; [exact Hhead|]. split; [exact Hlen|]. lia.
Qed.

Lemma page_transcript_alternates_witness :
  let c := component (interact (envOf calmWorld) (pageSession 2) bootMachine) in
  map role (messages c) = [assistant; user; assistant; user; assistant] /\
  questionCount (sessionState c) = 2.
Proof.
  intros c.
  assert (Hq : questionCount (sessionState c) = 2) by (vm_compute; reflexivity).
  destruct (page_transcript_alternates (envOf calmWorld) (pageSession 2))
    as (Hroles & _); [vm_compute; reflexivity|].
  fold c in Hroles. rewrite Hq in Hroles. split; [exact Hroles|exact Hq].
Defined.

(** Extra X17.  On a page driven through its controls, [hasStarted] is true
    exactly when the transcript is not empty, and while it is false the
    component is in its initial state. *)
Theorem started_iff_transcript_nonempty e actions :
  let c := component (interact e actions bootMachine) in
  (hasStarted c = true <-> messages c <> []) /\
  (hasStarted c = false -> c = initialComponent).
Proof.
  intros c.
  destruct (interact_onPage e actions bootMachine boot_onPage)
    as (_ & Hidle & Hshown & _). fold c in Hidle, Hshown.
  split; [|exact Hidle]. split.
  - intros Hs. destruct (Hshown Hs) as [(_ & Hroles & _) _].
    intros Hnil. rewrite Hnil in Hroles. discriminate.
  - intros Hne. destruct (hasStarted c) eqn:Hs; [done|].
    rewrite (Hidle eq_refl) in Hne. by destruct Hne.
Qed.


(** ** Time stamps *)

Lemma stampedBy_nil w bound : stampedBy w bound [].
Proof. exists []. repeat split; constructor. Qed.

Lemma stampedBy_mono w bound bound' msgs :
  (bound <= bound')%nat -> stampedBy w bound msgs -> stampedBy w bound' msgs.
Proof.
  intros Hle (idxs & Hmap & Hsorted & Hbound). exists idxs.
  split; [done|]. split; [done|].
  eapply Forall_impl; [exact Hbound|]. intros i Hi. simpl in Hi. lia.
Qed.

Lemma StronglySorted_lt_snoc2 (idxs : list nat) (i j : nat) :
  StronglySorted lt idxs -> Forall (fun x => (x < i)%nat) idxs -> (i < j)%nat ->
  StronglySorted lt (idxs ++ [i; j]).
Proof.
  intros Hsorted Hall Hij. induction Hsorted as [|x idxs Hsorted IH Hx].
  - repeat constructor. exact Hij.
  - apply Forall_cons in Hall as [Hxi Hall]. cbn [app]. constructor.
    + by apply IH.
    + apply Forall_app. split; [exact Hx|]. repeat constructor; lia.
Qed.

Lemma stampedBy_snoc2 w bound bound' msgs u a i j :
  stampedBy w bound msgs ->
  timestamp u = clock w i -> timestamp a = clock w j ->
  (bound <= i)%nat -> (i < j)%nat -> (j < bound')%nat ->
  stampedBy w bound' (msgs ++ [u; a]).
Proof.
  intros (idxs & Hmap & Hsorted & Hbound) Hu Ha Hi Hij Hj.
  exists (idxs ++ [i; j]). split; [|split].
  - rewrite !map_app, Hmap. cbn [map]. by rewrite Hu, Ha.
  - apply StronglySorted_lt_snoc2; [exact Hsorted| |exact Hij].
    eapply Forall_impl; [exact Hbound|]. intros x Hx. simpl in Hx. lia.
  - apply Forall_app. split.
    + eapply Forall_impl; [exact Hbound|]. intros x Hx. simpl in Hx. lia.
    + repeat constructor; lia.
Qed.

Lemma boot_stamped e : stampedMachine e bootMachine.
Proof.
  split; [apply stampedBy_nil|]. intros k r Hk.
  unfold bootMachine in Hk. cbn [localStorage] in Hk. by rewrite lookup_empty in Hk.
Qed.

Lemma exec_stamped e op m : stampedMachine e m -> stampedMachine e (exec e op m).
Proof.
  intros [Hscreen Hstore]. destruct op as [| |text]; cbn [exec].
  - destruct (load_cases e (mounted m)) as [-> | (data & Hget & ->)].
    + split; [apply stampedBy_nil | exact Hstore].
    + split; [|exact Hstore]. cbn [withComponent component messages].
      exact (Hstore _ _ Hget).
  - rewrite (handle_eq _ _ _ _ _ (start_shape e m)).
    assert (Hnew : stampedBy (world e) (clockReads m + 4) [welcomeMessageOf e m]).
    { exists [(clockReads m + 2)%nat]. split; [reflexivity|].
      split; repeat constructor. lia. }
    split; [exact Hnew|]. cbn [localStorage clockReads]. intros k r Hk.
    apply storeAfterSave_lookup in Hk as [-> | Hk]; [exact Hnew|].
    eapply stampedBy_mono; [|eauto]. lia.
  - destruct (sendBlocked (component (typed text m))) eqn:Hb.
    + rewrite (handle_eq _ _ _ _ _ (sendMessage_blocked e _ Hb)). by split.
    + destruct (turn_shape e _ Hb) as (reply & evs & k & _ & Heq).
      rewrite (handle_eq _ _ _ _ _ Heq).
      assert (Hnew : stampedBy (world e) (clockReads m + 7)
                       (rd_messages (turnRecord e (typed text m) reply))).
      { cbn [turnRecord rd_messages typed withComponent component messages].
        eapply (stampedBy_snoc2 _ (clockReads m) _ _ _ _
                  (clockReads m + 1) (clockReads m + 4));
          [exact Hscreen | reflexivity | reflexivity | lia | lia | lia]. }
      split; [exact Hnew|]. cbn [localStorage clockReads typed withComponent].
      intros key r Hk.
      apply storeAfterSave_lookup in Hk as [-> | Hk]; [exact Hnew|].
      eapply stampedBy_mono; [|eapply Hstore; exact Hk]. lia.
Qed.

Lemma run_stamped e ops m : stampedMachine e m -> stampedMachine e (run e ops m).
Proof.
  revert m. induction ops as [|op ops IH]; intros m H; [exact H|].
  change (run e (op :: ops) m) with (run e ops (exec e op m)).
  by apply IH, exec_stamped.
Qed.

Lemma stamps_sorted w idxs :
  monotoneClock w -> StronglySorted lt idxs ->
  StronglySorted Z.le (map (clock w) idxs).
Proof.
  intros Hmono. induction 1 as [|i idxs Hsorted IH Hall]; cbn [map]; constructor.
  - exact IH.
  - apply Forall_map. eapply Forall_impl; [exact Hall|].
    intros j Hj. simpl. apply Hmono. lia.
Qed.

(** Extra X18.  Under a clock that does not run backwards, the time stamps of
    the transcript on screen and of every stored transcript are in
    non-decreasing order, over any run from the booted machine. *)
Theorem timestamps_follow_the_clock e ops :
  monotoneClock (world e) ->
  let m := run e ops bootMachine in
  StronglySorted Z.le (map timestamp (messages (component m))) /\
  forall k r, localStorage m !! k = Some r ->
    StronglySorted Z.le (map timestamp (rd_messages r)).
Proof.
  intros Hmono m.
  destruct (run_stamped e ops bootMachine (boot_stamped e)) as [Hscreen Hstore].
  fold m in Hscreen, Hstore. split.
  - destruct Hscreen as (idxs & -> & Hsorted & _). by apply stamps_sorted.
  - intros k r Hk. destruct (Hstore k r Hk) as (idxs & -> & Hsorted & _).
    by apply stamps_sorted.
Qed.

Lemma timestamps_follow_the_clock_witness :
  StronglySorted Z.le
    (map timestamp
       (messages (component
          (run (envOf (pacedWorld 1000))
             [StartSession; SubmitUserTurn shipped; SubmitUserTurn shipped]
             bootMachine)))).
Proof.
  apply (timestamps_follow_the_clock (envOf (pacedWorld 1000))).
  apply pacedWorld_monotone. lia.
Defined.


(** ** The viewer on stored sessions *)

Lemma typed_input_same m : typed (input (component m)) m = m.
Proof. by destruct m as [[] ? ? ? ? ?]. Qed.

(** A step on the page is no step, a change of the input, or an operation of
    the engine. *)
Lemma act_cases e a m :
  act e a m = m \/ (exists text, act e a m = typed text m) \/
  (exists op, act e a m = exec e op m).
Proof.
  destruct a as [| |text| |ev]; cbn [act].
  - right. right. by exists Mount.
  - destruct (usable _ _); [|by left]. right. right. by exists StartSession.
  - destruct (usable _ _); [|by left]. right. left. by exists text.
  - destruct (usable _ _); [|by left]. right. right.
    exists (SubmitUserTurn (input (component m))). cbn [exec].
    by rewrite typed_input_same.
  - destruct (usable _ _); [|by left]. rewrite handleKeyPress_spec.
    destruct (bool_decide _ && _); [|by left]. right. right.
    exists (SubmitUserTurn (input (component m))). cbn [exec snd].
    by rewrite typed_input_same.
Qed.

Lemma interact_stamped e actions m :
  stampedMachine e m -> stampedMachine e (interact e actions m).
Proof.
  revert m. induction actions as [|a actions IH]; intros m H; [exact H|].
  change (interact e (a :: actions) m) with (interact e actions (act e a m)).
  apply IH. destruct (act_cases e a m) as [-> | [[text ->] | [op ->]]].
  - exact H.
  - exact H.
  - by apply exec_stamped.
Qed.

Lemma turnRoles_counts msgs n :
  map role msgs = turnRoles n ->
  length (List.filter (hasRole user) msgs) = n /\
  length (List.filter (hasRole assistant) msgs) = n.
Proof.
  revert msgs. induction n as [|n IH]; intros msgs Hroles.
  - destruct msgs; [by split|discriminate].
  - destruct msgs as [|u [|a msgs]]; try discriminate.
    cbn [map turnRoles] in Hroles. injection Hroles as Hu Ha Hrest.
    destruct (IH msgs Hrest) as [IHu IHa].
    cbn [List.filter]. unfold hasRole. rewrite Hu, Ha. cbn [length].
    fold (hasRole user) (hasRole assistant). split; lia.
Qed.

Lemma last_in_list {A} (l : list A) (d : A) : l <> [] -> In (List.last l d) l.
Proof.
  induction l as [|x [|y l] IH]; intros Hne; [done|by left|].
  right. apply IH. discriminate.
Qed.

Lemma stamped_first_last w bound msgs first :
  monotoneClock w -> stampedBy w bound (first :: msgs) ->
  timestamp first <= timestamp (List.last (first :: msgs) first).
Proof.
  intros Hmono (idxs & Hmap & Hsorted & _).
  apply (stamps_sorted w idxs Hmono) in Hsorted. rewrite <- Hmap in Hsorted.
  cbn [map] in Hsorted. apply StronglySorted_inv in Hsorted as [_ Hall].
  destruct msgs as [|x msgs]; [cbn; lia|].
  rewrite Forall_forall in Hall. apply Hall. apply list_elem_of_In, in_map.
  change (List.last (first :: x :: msgs) first) with (List.last (x :: msgs) first).
  apply last_in_list. discriminate.
Qed.

Lemma Math_round_nonneg (d : Z) :
  0 <= d -> 0 <= Math_round (inject_Z d / inject_Z (1000 * 60))%Q.
Proof.
  intros Hd. unfold Math_round. change 0 with (Qfloor 0).
  apply Qfloor_resp_le.
  change (1000 * 60) with 60000. unfold Qdiv, Qmult, Qinv, Qplus, Qle. cbn. nia.
Qed.

(** Extra X19.  Under a clock that does not run backwards, for a session
    driven through the page's controls and stored under today's key, the viewer
    opened on today's date for the same user loads that record and reports
    [1 + 2 * questionCount] messages, [questionCount] of the user and one more
    of the assistant, and a duration in minutes that is not negative. *)
Theorem viewer_counts_the_stored_session e actions r :
  monotoneClock (world e) ->
  user_id e <> [] -> todayDate e <> [] ->
  localStorage (interact e actions bootMachine) !! reflectionKey e = Some r ->
  let v := loadReflection (user_id e) (todayDate e)
             (localStorage (interact e actions bootMachine)) initialViewer in
  let n := Z.to_nat (questionCount (rd_sessionState r)) in
  reflection v = Some r /\ loading v = false /\
  exists minutes,
    0 <= minutes /\
    getSessionStats v =
      Some {| totalMessages := 1 + 2 * n; userMessages := n;
              assistantMessages := S n; duration := Some minutes |}.
Proof.
  intros Hmono Hu Hd Hr v n.
  destruct (interact_onPage e actions bootMachine boot_onPage) as (_ & _ & _ & Hpage).
  destruct (interact_stamped e actions bootMachine (boot_stamped e)) as [_ Hstamped].
  destruct (Hpage _ _ Hr) as [(Hpos & Hroles & _) _].
  specialize (Hstamped _ _ Hr).
  assert (Hv : v = {| reflection := Some r; loading := false |}).
  { subst v. unfold loadReflection.
    assert (truthy (user_id e) = true) as -> by (by destruct (user_id e)).
    assert (truthy (todayDate e) = true) as -> by (by destruct (todayDate e)).
    cbn [negb orb].
    match goal with
    | |- match ?x with _ => _ end = _ => assert (x = Some r) as -> by exact Hr
    end.
    reflexivity. }
  rewrite Hv. cbn [reflection loading]. split; [done|]. split; [done|].
  unfold getSessionStats, getSessionDuration. cbn [reflection].
  destruct (rd_messages r) as [|first msgs] eqn:Hmsgs; [discriminate|].
  cbn [map] in Hroles. injection Hroles as Hfirst Hrest. fold n in Hrest.
  destruct (turnRoles_counts _ _ Hrest) as [Hcu Hca].
  eexists. split; [|f_equal; f_equal].
  - apply Math_round_nonneg.
    pose proof (stamped_first_last _ _ _ _ Hmono Hstamped). lia.
  - cbn [length]. apply (f_equal (@length _)) in Hrest.
    rewrite length_map, turnRoles_length in Hrest. lia.
  - cbn [List.filter]. unfold hasRole at 1. rewrite Hfirst. exact Hcu.
  - cbn [List.filter]. unfold hasRole at 1. rewrite Hfirst. cbn [length]. by rewrite Hca.
Qed.

Lemma viewer_counts_the_stored_session_witness :
  let e := envOf (pacedWorld 1000) in
  let store := localStorage (interact e (pageSession 2) bootMachine) in
  exists minutes,
    0 <= minutes /\
    getSessionStats (loadReflection (user_id e) (todayDate e) store initialViewer)
    = Some {| totalMessages := 5; userMessages := 2; assistantMessages := 3;
              duration := Some minutes |}.
Proof.
  intros e store.
  destruct (store !! reflectionKey e) as [r|] eqn:Hr; [|vm_compute in Hr; discriminate].
  destruct (viewer_counts_the_stored_session e (pageSession 2) r)
    as (_ & _ & minutes & Hpos & Hstats).
  - apply pacedWorld_monotone. lia.
  - vm_compute. discriminate.
  - vm_compute. discriminate.
  - exact Hr.
  - exists minutes. split; [exact Hpos|]. fold store in Hstats. rewrite Hstats.
    assert (Hq : questionCount (rd_sessionState r) = 2).
    { vm_compute in Hr. injection Hr as <-. reflexivity. }
    rewrite Hq. reflexivity.
Defined.


(** ** The profile form *)

Lemma trimmedText_trim s : trim s <> [] -> trimmedText (trim s).
Proof.
  intros Hne. split; [exact Hne|]. split.
  - intros c Hc. destruct (trim s) as [|x t] eqn:Ht; [done|].
    injection Hc as <-. by apply trim_head in Ht.
  - apply trim_last.
Qed.

Lemma truthy_true s : truthy s = true <-> s <> [].
Proof. by destruct s. Qed.

Lemma tidy_snoc l s :
  tidy l -> trim s <> [] -> trim s ∉ l -> tidy (l ++ [trim s]).
Proof.
  intros [Hnd Hall] Hne Hnew. split.
  - apply NoDup_app. split; [exact Hnd|]. split.
    + intros x Hx Hx'. apply list_elem_of_singleton in Hx'. by subst.
    + apply NoDup_singleton.
  - apply Forall_app. split; [exact Hall|]. constructor; [|constructor].
    by apply trimmedText_trim.
Qed.

Lemma tidy_filter (P : jsstring -> bool) l : tidy l -> tidy (List.filter P l).
Proof.
  intros [Hnd Hall]. split.
  - apply NoDup_ListNoDup, List.NoDup_filter. by apply NoDup_ListNoDup.
  - rewrite Forall_forall in Hall |- *. intros x Hx.
    apply list_elem_of_In, List.filter_In in Hx as [Hx _].
    apply Hall. by apply list_elem_of_In.
Qed.

Lemma initial_tidy : tidyProfile ProfileSetup.initialProfile.
Proof.
  unfold tidyProfile, tidy.
  cbn [ProfileSetup.goals ProfileSetup.currentChallenges ProfileSetup.stage
       ProfileSetup.initialProfile].
  split; [split; constructor|]. split; [split; constructor|].
  unfold ProfileSetup.stageItems. apply list_elem_of_In. right. left. reflexivity.
Qed.

Lemma addGoal_tidy e p : tidyPage e p -> tidyPage e (ProfileSetup.addGoal p).
Proof.
  intros [(Hg & Hc & Hs) Hstore]. unfold ProfileSetup.addGoal.
  destruct (truthy _ && _) eqn:Hguard; [|by split].
  apply andb_prop in Hguard as [Ht Hnew]. apply truthy_true in Ht.
  apply negb_true_iff, bool_decide_eq_false in Hnew.
  split; [|exact Hstore]. cbn. split; [by apply tidy_snoc|by split].
Qed.

Lemma addChallenge_tidy e p : tidyPage e p -> tidyPage e (ProfileSetup.addChallenge p).
Proof.
  intros [(Hg & Hc & Hs) Hstore]. unfold ProfileSetup.addChallenge.
  destruct (truthy _ && _) eqn:Hguard; [|by split].
  apply andb_prop in Hguard as [Ht Hnew]. apply truthy_true in Ht.
  apply negb_true_iff, bool_decide_eq_false in Hnew.
  split; [|exact Hstore]. cbn. split; [exact Hg|]. split; [by apply tidy_snoc|exact Hs].
Qed.

Lemma saveProfile_tidy e p : tidyPage e p -> tidyPage e (ProfileSetup.saveProfile e p).
Proof.
  intros [Hf Hstore]. unfold ProfileSetup.saveProfile.
  destruct (truthy (trim (ProfileSetup.companyName _))) eqn:Hcn; cbn [negb];
    [|by split].
  destruct (truthy (trim (ProfileSetup.industry _))) eqn:Hin; cbn [negb];
    [|by split].
  destruct (truthy (ProfileSetup.stage _)) eqn:Hst; cbn [negb]; [|by split].
  destruct (Nat.eqb_spec (length (ProfileSetup.goals (ProfileSetup.profile (ProfileSetup.form p)))) 0)
    as [Hlen|Hlen]; [by split|].
  apply truthy_true in Hcn, Hin.
  assert (Hnew : tidyProfile (ProfileSetup.withUpdatedAt
                    (ProfileSetup.toISOString e (ProfileSetup.clockReads p))
                    (ProfileSetup.profile (ProfileSetup.form p))) /\
                 acceptable (ProfileSetup.withUpdatedAt
                    (ProfileSetup.toISOString e (ProfileSetup.clockReads p))
                    (ProfileSetup.profile (ProfileSetup.form p)))).
  { split; [exact Hf|]. unfold acceptable. cbn.
    repeat split; try done.
    intros Hnil. by rewrite Hnil in Hlen. }
  cbn [ProfileSetup.setIsLoading ProfileSetup.withForm ProfileSetup.clockReads
       ProfileSetup.storageWrites ProfileSetup.store ProfileSetup.form
       ProfileSetup.trace ProfileSetup.profile].
  destruct (ProfileSetup.setItemOk e (ProfileSetup.storageWrites p)).
  - assert (Hst' : forall k f,
      <[ProfileSetup.profileKey (ProfileSetup.user_id e) :=
          ProfileSetup.withUpdatedAt
            (ProfileSetup.toISOString e (ProfileSetup.clockReads p))
            (ProfileSetup.profile (ProfileSetup.form p))]> (ProfileSetup.store p) !! k
        = Some f ->
      k = ProfileSetup.profileKey (ProfileSetup.user_id e) /\ tidyProfile f /\ acceptable f).
    { intros k f Hk.
      destruct (decide (ProfileSetup.profileKey (ProfileSetup.user_id e) = k)) as [<-|Hne].
      - rewrite lookup_insert_eq in Hk. injection Hk as <-. by split.
      - rewrite lookup_insert_ne in Hk by done. eauto. }
    destruct (ProfileSetup.onProfileComplete e); by split.
  - by split.
Qed.

Lemma act_tidy e a p : tidyPage e p -> tidyPage e (ProfileSetup.act e a p).
Proof.
  intros H. pose proof H as [(Hg & Hc & Hs) Hstore].
  destruct a; cbn [ProfileSetup.act].
  - unfold ProfileSetup.loadProfile.
    assert (Hinit : tidyPage e (ProfileSetup.withForm (fun _ => ProfileSetup.initialForm) p)).
    { split; [exact initial_tidy|exact Hstore]. }
    destruct (negb _); [exact Hinit|].
    cbn [ProfileSetup.withForm ProfileSetup.store].
    destruct (ProfileSetup.store p !! _) as [f|] eqn:Hk; [|exact Hinit].
    split; [|exact Hstore]. cbn. by apply (Hstore _ _ Hk).
  - by split.
  - by split.
  - destruct (bool_decide _) eqn:Hin; [|exact H].
    apply bool_decide_eq_true in Hin. by split.
  - by split.
  - by split.
  - destruct (truthy _); [by apply addGoal_tidy|exact H].
  - destruct (truthy _); [by apply addChallenge_tidy|exact H].
  - unfold ProfileSetup.handleKeyPress. destruct (bool_decide _); [by apply addGoal_tidy|exact H].
  - unfold ProfileSetup.handleKeyPress. destruct (bool_decide _); [by apply addChallenge_tidy|exact H].
  - destruct (bool_decide _); [|exact H]. split; [|exact Hstore].
    cbn. split; [by apply tidy_filter|by split].
  - destruct (bool_decide _); [|exact H]. split; [|exact Hstore].
    cbn. split; [exact Hg|]. split; [by apply tidy_filter|exact Hs].
  - destruct (ProfileSetup.isLoading _); [exact H|by apply saveProfile_tidy].
Qed.

Lemma interact_tidy e actions p :
  tidyPage e p -> tidyPage e (ProfileSetup.interact e actions p).
Proof.
  revert p. induction actions as [|a actions IH]; intros p H; [exact H|].
  change (ProfileSetup.interact e (a :: actions) p)
    with (ProfileSetup.interact e actions (ProfileSetup.act e a p)).
  by apply IH, act_tidy.
Qed.

Lemma bootPage_tidy e : tidyPage e ProfileSetup.bootPage.
Proof.
  split; [exact initial_tidy|].
  intros k f Hk. cbn in Hk. by rewrite lookup_empty in Hk.
Qed.

(** Extra X20.  Whatever the user does on the profile form, starting from
    an empty store, the goals and the challenges hold no duplicate, every entry
    is non-empty and neither begins nor ends with white space, and the stage is
    one the select offers. *)
Theorem goals_stay_distinct_and_trimmed e actions :
  let f := ProfileSetup.profile (ProfileSetup.form
             (ProfileSetup.interact e actions ProfileSetup.bootPage)) in
  NoDup (ProfileSetup.goals f) /\ NoDup (ProfileSetup.currentChallenges f) /\
  (forall g, g ∈ ProfileSetup.goals f ++ ProfileSetup.currentChallenges f ->
     g <> [] /\
     (forall c, head g = Some c -> isWhiteSpace c = false) /\
     (forall c, last g = Some c -> isWhiteSpace c = false)) /\
  ProfileSetup.stage f ∈ ProfileSetup.stageItems.
Proof.
  intros f.
  destruct (interact_tidy e actions _ (bootPage_tidy e))
    as [([Hg1 Hg2] & [Hc1 Hc2] & Hs) _]. fold f in Hg1, Hg2, Hc1, Hc2, Hs.
  split; [exact Hg1|]. split; [exact Hc1|]. split; [|exact Hs].
  intros g Hg. apply elem_of_app in Hg as [Hg|Hg].
  - rewrite Forall_forall in Hg2. exact (Hg2 g Hg).
  - rewrite Forall_forall in Hc2. exact (Hc2 g Hg).
Qed.

Lemma acceptable_isCompleted f :
  tidyProfile f -> acceptable f -> App.isCompleted f = true.
Proof.
  intros (_ & _ & Hstage) (Hcn & Hin & Hgoals & _). unfold App.isCompleted.
  assert (truthy (ProfileSetup.companyName f) = true) as ->.
  { apply truthy_true. intros Hnil. by rewrite Hnil in Hcn. }
  assert (truthy (ProfileSetup.industry f) = true) as ->.
  { apply truthy_true. intros Hnil. by rewrite Hnil in Hin. }
  assert (truthy (ProfileSetup.stage f) = true) as ->.
  { apply truthy_true. intros Hnil. rewrite Hnil in Hstage.
    apply list_elem_of_In in Hstage. cbn in Hstage.
    repeat destruct Hstage as [Hstage|Hstage]; try discriminate; done. }
  cbn [andb]. apply Nat.ltb_lt. destruct (ProfileSetup.goals f); [done|cbn; lia].
Qed.

(** Extra X21.  For a signed-in user with a non-empty id, the check [App]
    runs on the stored profiles sets [profileCompleted] to true exactly when
    the profile form has stored a profile for that user: every profile
    [saveProfile] lets through passes the shell's own test. *)
Theorem gate_opens_exactly_for_saved_profiles e actions s :
  ProfileSetup.user_id e <> [] ->
  App.user s = Some (ProfileSetup.user_id e) ->
  let profiles :=
    ProfileSetup.store (ProfileSetup.interact e actions ProfileSetup.bootPage) in
  App.profileCompleted (App.checkProfile profiles s)
  = bool_decide (is_Some (profiles !! ProfileSetup.profileKey (ProfileSetup.user_id e))).
Proof.
  intros Hu Hs profiles.
  destruct (interact_tidy e actions _ (bootPage_tidy e)) as [_ Hstore].
  fold profiles in Hstore. unfold App.checkProfile. rewrite Hs.
  cbn [App.given default]. apply truthy_true in Hu. rewrite Hu.
  destruct (profiles !! _) as [f|] eqn:Hk.
  - destruct (Hstore _ _ Hk) as (_ & Ht & Ha).
    cbn [App.setProfileCompleted App.profileCompleted].
    rewrite (acceptable_isCompleted f Ht Ha). symmetry. by apply bool_decide_eq_true.
  - cbn [App.setProfileCompleted App.profileCompleted]. symmetry.
    apply bool_decide_eq_false. by intros [? ?].
Qed.

Lemma gate_opens_exactly_for_saved_profiles_witness :
  let e := sampleProfileEnv in
  let profiles := ProfileSetup.store
                    (ProfileSetup.interact e (fillProfile ++ [ProfileSetup.ClickSave])
                       ProfileSetup.bootPage) in
  App.profileCompleted
    (App.checkProfile profiles
       (App.authStateChanged (Some (lit "u1")) false App.initialState)) = true.
Proof.
  intros e profiles.
  rewrite (gate_opens_exactly_for_saved_profiles e
             (fillProfile ++ [ProfileSetup.ClickSave])); [|discriminate|reflexivity].
  vm_compute. reflexivity.
Defined.

(** Extra X22.  [saveProfile] on a profile with a blank company name, a
    blank industry, no stage or no goal writes nothing, leaves the form as it
    is and shows exactly one destructive toast titled "Required Field
    Missing". *)
Theorem saveProfile_rejects_incomplete e p :
  let f := ProfileSetup.profile (ProfileSetup.form p) in
  trim (ProfileSetup.companyName f) = [] \/ trim (ProfileSetup.industry f) = [] \/
  ProfileSetup.stage f = [] \/ ProfileSetup.goals f = [] ->
  let p' := ProfileSetup.saveProfile e p in
  ProfileSetup.form p' = ProfileSetup.form p /\
  ProfileSetup.store p' = ProfileSetup.store p /\
  ProfileSetup.storageWrites p' = ProfileSetup.storageWrites p /\
  exists description,
    ProfileSetup.trace p' =
      ProfileSetup.trace p ++
        [ProfileSetup.EvToast (lit "Required Field Missing") description true].
Proof.
  intros f Hbad p'. subst p'. unfold ProfileSetup.saveProfile. fold f.
  destruct (trim (ProfileSetup.companyName f)) as [|? ?] eqn:Hcn; cbn [truthy negb].
  { repeat split. by eexists. }
  destruct (trim (ProfileSetup.industry f)) as [|? ?] eqn:Hin; cbn [truthy negb].
  { repeat split. by eexists. }
  destruct (ProfileSetup.stage f) as [|? ?] eqn:Hst; cbn [truthy negb].
  { repeat split. by eexists. }
  destruct (ProfileSetup.goals f) as [|? ?] eqn:Hg; cbn [length Nat.eqb].
  { repeat split. by eexists. }
  by destruct Hbad as [?|[?|[?|?]]].
Qed.

Lemma saveProfile_rejects_incomplete_witness :
  let p := ProfileSetup.bootPage in
  ProfileSetup.store (ProfileSetup.saveProfile sampleProfileEnv p) = ProfileSetup.store p /\
  ProfileSetup.form (ProfileSetup.saveProfile sampleProfileEnv p) = ProfileSetup.form p.
Proof.
  intros p.
  destruct (saveProfile_rejects_incomplete sampleProfileEnv p) as (Hf & Hs & _).
  - left. reflexivity.
  - split; [exact Hs|exact Hf].
Defined.

(** Extra X23.  When the four checks pass and the store accepts the write,
    mounting the form again shows the saved profile, stamped with [updatedAt],
    and empty inputs; the form in memory keeps the profile as it was, ends
    with [isLoading] false, and the last effect is the completion callback
    if one was passed, the "Profile Saved" toast otherwise. *)
Theorem saved_profile_comes_back_on_mount e p :
  let f := ProfileSetup.profile (ProfileSetup.form p) in
  ProfileSetup.user_id e <> [] ->
  trim (ProfileSetup.companyName f) <> [] -> trim (ProfileSetup.industry f) <> [] ->
  ProfileSetup.stage f <> [] -> ProfileSetup.goals f <> [] ->
  ProfileSetup.setItemOk e (ProfileSetup.storageWrites p) = true ->
  let p' := ProfileSetup.saveProfile e p in
  ProfileSetup.form (ProfileSetup.act e ProfileSetup.Mount p') =
    {| ProfileSetup.profile :=
         ProfileSetup.withUpdatedAt
           (ProfileSetup.toISOString e (ProfileSetup.clockReads p)) f;
       ProfileSetup.isLoading := false;
       ProfileSetup.goalInput := []; ProfileSetup.challengeInput := [] |} /\
  ProfileSetup.profile (ProfileSetup.form p') = f /\
  ProfileSetup.isLoading (ProfileSetup.form p') = false /\
  last (ProfileSetup.trace p') =
    Some (if ProfileSetup.onProfileComplete e then ProfileSetup.EvProfileComplete
          else ProfileSetup.EvToast (lit "Profile Saved")
                 (lit "Your founder profile has been updated successfully.") false).
Proof.
  intros f Hu Hcn Hin Hst Hg Hok p'. subst p'.
  unfold ProfileSetup.saveProfile. fold f.
  apply truthy_true in Hcn, Hin, Hst. rewrite Hcn, Hin, Hst. cbn [negb].
  destruct (ProfileSetup.goals f) as [|g gs] eqn:Egoals; [done|]. cbn [length Nat.eqb].
  cbn [ProfileSetup.setIsLoading ProfileSetup.withForm ProfileSetup.clockReads
       ProfileSetup.storageWrites ProfileSetup.store ProfileSetup.form
       ProfileSetup.trace ProfileSetup.profile].
  rewrite Hok. apply truthy_true in Hu.
  cbn [ProfileSetup.act]. unfold ProfileSetup.loadProfile. rewrite Hu. cbn [negb].
  destruct (ProfileSetup.onProfileComplete e);
    cbn; rewrite lookup_insert_eq; cbn; rewrite ?last_snoc; repeat split.
Qed.

Lemma saved_profile_comes_back_on_mount_witness :
  let e := sampleProfileEnv in
  let p' := ProfileSetup.saveProfile e filledPage in
  ProfileSetup.goals (ProfileSetup.profile
    (ProfileSetup.form (ProfileSetup.act e ProfileSetup.Mount p'))) = [lit "Launch MVP"] /\
  ProfileSetup.updatedAt (ProfileSetup.profile
    (ProfileSetup.form (ProfileSetup.act e ProfileSetup.Mount p')))
    = Some (lit "2024-05-06T09:00:00.000Z").
Proof.
  intros e p'.
  destruct (saved_profile_comes_back_on_mount e filledPage) as (Hback & _).
  - discriminate.
  - vm_compute. discriminate.
  - vm_compute. discriminate.
  - vm_compute. discriminate.
  - vm_compute. discriminate.
  - reflexivity.
  - subst p'. rewrite Hback. split; vm_compute; reflexivity.
Defined.

(** Extra X24.  Adding a goal that is not blank and not yet listed puts its
    trimmed text at the end of the list and empties the input; removing that
    text gives back the list as it was. *)
Theorem removeGoal_undoes_addGoal p :
  let g := trim (ProfileSetup.goalInput (ProfileSetup.form p)) in
  let gs := ProfileSetup.goals (ProfileSetup.profile (ProfileSetup.form p)) in
  g <> [] -> g ∉ gs ->
  ProfileSetup.goals (ProfileSetup.profile (ProfileSetup.form (ProfileSetup.addGoal p)))
    = gs ++ [g] /\
  ProfileSetup.goals (ProfileSetup.profile (ProfileSetup.form
    (ProfileSetup.removeGoal g (ProfileSetup.addGoal p)))) = gs /\
  ProfileSetup.goalInput (ProfileSetup.form (ProfileSetup.addGoal p)) = [].
Proof.
  intros g gs Hne Hnew. unfold ProfileSetup.addGoal. fold g gs.
  apply truthy_true in Hne. rewrite Hne.
  rewrite (bool_decide_eq_false_2 _ Hnew). cbn.
  fold g gs. split; [reflexivity|]. split; [|reflexivity].
  rewrite List.filter_app. cbn. rewrite bool_decide_eq_true_2 by done. cbn.
  rewrite app_nil_r.
  induction gs as [|x gs IH]; [reflexivity|]. cbn.
  apply not_elem_of_cons in Hnew as [Hx Hnew].
  rewrite bool_decide_eq_false_2 by congruence. cbn. f_equal. by apply IH.
Qed.

Lemma removeGoal_undoes_addGoal_witness :
  let p := ProfileSetup.act sampleProfileEnv (ProfileSetup.TypeGoal (lit " Launch MVP "))
             ProfileSetup.bootPage in
  ProfileSetup.goals (ProfileSetup.profile (ProfileSetup.form (ProfileSetup.addGoal p)))
    = [lit "Launch MVP"] /\
  ProfileSetup.goals (ProfileSetup.profile (ProfileSetup.form
    (ProfileSetup.removeGoal (lit "Launch MVP") (ProfileSetup.addGoal p)))) = [].
Proof.
  intros p.
  destruct (removeGoal_undoes_addGoal p) as (Hadd & Hrem & _).
  - vm_compute. discriminate.
  - vm_compute. apply not_elem_of_nil.
  - split.
    + rewrite Hadd. vm_compute. reflexivity.
    + transitivity (ProfileSetup.goals (ProfileSetup.profile (ProfileSetup.form p)));
        [|reflexivity].
      rewrite <- Hrem. vm_compute. reflexivity.
Defined.

(** Extra X25.  When the four checks pass and the store refuses the write,
    [saveProfile] leaves the store and the profile as they were, ends with
    [isLoading] false, logs the error and shows the destructive "Error" toast;
    the completion callback is not called. *)
Theorem refused_profile_write_is_reported e p :
  let f := ProfileSetup.profile (ProfileSetup.form p) in
  trim (ProfileSetup.companyName f) <> [] -> trim (ProfileSetup.industry f) <> [] ->
  ProfileSetup.stage f <> [] -> ProfileSetup.goals f <> [] ->
  ProfileSetup.setItemOk e (ProfileSetup.storageWrites p) = false ->
  let p' := ProfileSetup.saveProfile e p in
  ProfileSetup.store p' = ProfileSetup.store p /\
  ProfileSetup.profile (ProfileSetup.form p') = f /\
  ProfileSetup.isLoading (ProfileSetup.form p') = false /\
  ProfileSetup.trace p' =
    ProfileSetup.trace p ++
      [ProfileSetup.EvConsoleError (lit "Error saving profile:");
       ProfileSetup.EvToast (lit "Error")
         (lit "Failed to save profile. Please try again.") true].
Proof.
  intros f Hcn Hin Hst Hg Hno p'. subst p'.
  unfold ProfileSetup.saveProfile. fold f.
  apply truthy_true in Hcn, Hin, Hst. rewrite Hcn, Hin, Hst. cbn [negb].
  destruct (ProfileSetup.goals f) as [|g gs] eqn:Egoals; [done|]. cbn [length Nat.eqb].
  cbn [ProfileSetup.setIsLoading ProfileSetup.withForm ProfileSetup.clockReads
       ProfileSetup.storageWrites ProfileSetup.store ProfileSetup.form
       ProfileSetup.trace ProfileSetup.profile].
  rewrite Hno.
  unfold ProfileSetup.toast, ProfileSetup.emit, ProfileSetup.setIsLoading,
    ProfileSetup.withForm.
  cbn [ProfileSetup.store ProfileSetup.form ProfileSetup.trace ProfileSetup.profile
       ProfileSetup.isLoading].
  rewrite <- app_assoc. repeat split.
Qed.

Lemma refused_profile_write_is_reported_witness :
  let e := {| ProfileSetup.user_id := lit "u1";
              ProfileSetup.onProfileComplete := true;
              ProfileSetup.toISOString := ProfileSetup.toISOString sampleProfileEnv;
              ProfileSetup.setItemOk := fun _ => false |} in
  ProfileSetup.store (ProfileSetup.saveProfile e filledPage) = ProfileSetup.store filledPage /\
  last (ProfileSetup.trace (ProfileSetup.saveProfile e filledPage)) =
    Some (ProfileSetup.EvToast (lit "Error")
            (lit "Failed to save profile. Please try again.") true).
Proof.
  intros e.
  destruct (refused_profile_write_is_reported e filledPage) as (Hs & _ & _ & Ht).
  - vm_compute. discriminate.
  - vm_compute. discriminate.
  - vm_compute. discriminate.
  - vm_compute. discriminate.
  - reflexivity.
  - split; [exact Hs|]. rewrite Ht, last_app. reflexivity.
Defined.

(** ** The shell *)

(** Extra X26.  For a signed-in user with a profile, opening a reflection
    shows the reflection viewer; going back sets the page to the dashboard but
    shows the weekly summary that was open when there is one, and the
    dashboard only otherwise. *)
Theorem back_from_reflection_returns_to_open_summary s date :
  App.loading s = false -> App.user s <> None -> App.profileCompleted s = true ->
  date <> [] ->
  let viewing := App.handleViewReflection date s in
  let back := App.handleBackToDashboard viewing in
  App.render viewing = App.ReflectionViewerScreen date /\
  App.currentPage back = lit "dashboard" /\
  App.render back =
    if App.given (App.viewingSummary s)
    then App.WeeklySummaryViewerScreen (default [] (App.viewingSummary s))
    else App.DashboardPage.
Proof.
  intros Hl Hu Hp Hd viewing back. subst viewing back.
  unfold App.render, App.handleBackToDashboard, App.handleViewReflection.
  cbn. rewrite Hl, Hp. destruct (App.user s); [|done]. cbn.
  unfold App.renderCurrentPage. cbn.
  apply truthy_true in Hd. rewrite Hd.
  split; [reflexivity|]. split; [reflexivity|].
  destruct (App.given (App.viewingSummary s)); reflexivity.
Qed.

Lemma back_from_reflection_returns_to_open_summary_witness :
  App.render (App.handleBackToDashboard
                (App.handleViewReflection (lit "2024-05-06") summaryOpen))
  = App.WeeklySummaryViewerScreen (lit "1714953600000").
Proof.
  destruct (back_from_reflection_returns_to_open_summary summaryOpen (lit "2024-05-06"))
    as (_ & _ & Hback).
  - reflexivity.
  - discriminate.
  - reflexivity.
  - discriminate.
  - exact Hback.
Defined.

(** Extra X27.  While a signed-in user has no completed profile, no sequence
    of page changes, openings and goings back makes [App] render anything but
    the profile form. *)
Theorem gate_cannot_be_bypassed s steps :
  App.loading s = false -> App.user s <> None -> App.profileCompleted s = false ->
  App.render (fold_left (fun s n => App.navigate n s) steps s) = App.ProfileGate.
Proof.
  revert s. induction steps as [|n steps IH]; intros s Hl Hu Hp.
  - cbn [fold_left]. unfold App.render. rewrite Hl, Hp. by destruct (App.user s).
  - cbn [fold_left]. apply IH; by destruct n.
Qed.

Lemma gate_cannot_be_bypassed_witness :
  App.render
    (fold_left (fun s n => App.navigate n s)
       [App.PageChange (lit "dashboard"); App.ViewReflection (lit "2024-05-06")]
       (App.authStateChanged (Some (lit "u1")) false App.initialState))
  = App.ProfileGate.
Proof.
  apply (gate_cannot_be_bypassed
           (App.authStateChanged (Some (lit "u1")) false App.initialState));
    [reflexivity | discriminate | reflexivity].
Defined.
